(** * Hypertension CDSS: the clinical rule engine of [backend/utils/preprocess.py]

    A shallow embedding of the validator, the blood-pressure classifier, the
    risk-factor identifier, the risk scorer and the confidence estimator,
    followed by the properties the design document states about them.

    Python integers are [Z]; Python floats are the primitive binary64 floats
    of [PrimFloat]; strings are [string]; the request dictionary is a
    [gmap string pyval]; exceptions are an explicit [result] type. *)

From Stdlib Require Import ZArith Lia Bool List Floats.
From stdpp Require Import base option strings gmap pretty.
Import ListNotations.

Local Open Scope Z_scope.

(* ===================================================================== *)
(** * Part I: definitions                                                 *)
(* ===================================================================== *)

(** ** Python results: a value or a raised exception *)

Inductive exn := KeyError | TypeError | OverflowError.

Inductive result (A : Type) :=
  | Ok (a : A)
  | Raise (e : exn).
Arguments Ok {A} a.
Arguments Raise {A} e.

Definition rbind {A B} (r : result A) (k : A -> result B) : result B :=
  match r with
  | Ok a => k a
  | Raise e => Raise e
  end.

Notation "x <-- r ;; k" := (rbind r (fun x => k))
  (at level 100, r at next level, right associativity).

(** ** Python values, as far as a decoded JSON request holds them *)

(** [VStr] also stands for every other non-numeric object: the validator
    only asks whether a value is [None], a [bool], an [int] or a [float]. *)
Inductive pyval :=
  | VNone
  | VBool (b : bool)
  | VInt (z : Z)
  | VFloat (f : float)
  | VStr (s : string).

Definition is_None (v : pyval) : bool :=
  match v with VNone => true | _ => false end.

(** [isinstance(v, bool)], [isinstance(v, int)] ([bool] is a subclass of
    [int]) and [isinstance(v, (int, float))]. *)
Definition isinstance_bool (v : pyval) : bool :=
  match v with VBool _ => true | _ => false end.
Definition isinstance_int (v : pyval) : bool :=
  match v with VBool _ | VInt _ => true | _ => false end.
Definition isinstance_int_float (v : pyval) : bool :=
  match v with VBool _ | VInt _ | VFloat _ => true | _ => false end.

(** Numbers and their ordering.  Python compares an [int] with a [float]
    exactly, on the mathematical values; every comparison with NaN is
    unordered, hence false. *)
Inductive pynum :=
  | NInt (z : Z)
  | NFloat (f : float).

Definition compare_int_float (z : Z) (f : float) : option comparison :=
  match Prim2SF f with
  | S754_nan => None
  | S754_zero _ => Some (z ?= 0)
  | S754_infinity s => Some (if s then Gt else Lt)
  | S754_finite s m e =>
      let v := if s then Zneg m else Zpos m in
      match e with
      | Zneg p => Some (z * 2 ^ Zpos p ?= v)
      | _ => Some (z ?= v * 2 ^ e)
      end
  end.

Definition num_compare (a b : pynum) : option comparison :=
  match a, b with
  | NInt x, NInt y => Some (x ?= y)
  | NInt x, NFloat g => compare_int_float x g
  | NFloat f, NInt y => option_map CompOpp (compare_int_float y f)
  | NFloat f, NFloat g =>
      match PrimFloat.compare f g with
      | FEq => Some Eq
      | FLt => Some Lt
      | FGt => Some Gt
      | FNotComparable => None
      end
  end.

Definition num_lt (a b : pynum) : bool :=
  match num_compare a b with Some Lt => true | _ => false end.
Definition num_gt (a b : pynum) : bool :=
  match num_compare a b with Some Gt => true | _ => false end.
Definition num_ge (a b : pynum) : bool :=
  match num_compare a b with Some Gt | Some Eq => true | _ => false end.

Definition as_number (v : pyval) : option pynum :=
  match v with
  | VBool b => Some (NInt (Z.b2z b))
  | VInt z => Some (NInt z)
  | VFloat f => Some (NFloat f)
  | _ => None
  end.

(** [a < b], [a > b], [a >= b] on objects: numeric on numbers, by code
    points on two strings, [TypeError] otherwise. *)
Definition py_richcompare (on_num : pynum -> pynum -> bool)
    (on_str : comparison -> bool) (a b : pyval) : result bool :=
  match as_number a, as_number b with
  | Some x, Some y => Ok (on_num x y)
  | _, _ =>
      match a, b with
      | VStr s, VStr t => Ok (on_str (String.compare s t))
      | _, _ => Raise TypeError
      end
  end.

Definition py_lt : pyval -> pyval -> result bool :=
  py_richcompare num_lt (fun c => match c with Lt => true | _ => false end).
Definition py_gt : pyval -> pyval -> result bool :=
  py_richcompare num_gt (fun c => match c with Gt => true | _ => false end).
Definition py_ge : pyval -> pyval -> result bool :=
  py_richcompare num_ge (fun c => match c with Lt => false | _ => true end).

(** [data[key]] on a dictionary. *)
Definition py_getitem {V : Type} (data : gmap string V) (key : string) : result V :=
  match data !! key with
  | Some v => Ok v
  | None => Raise KeyError
  end.

(** [str(v)] inside an f-string, for the values [FIELD_RANGES] holds:
    integers, and floats with an integral value below 10^16, which print
    with a trailing [.0].  The shortest-digits printing of other floats is
    not modelled; no such float occurs in the table. *)
Definition float_str (f : float) : string :=
  match Prim2SF f with
  | S754_zero s => if s then "-0.0" else "0.0"
  | S754_finite s m e =>
      let sign := if s then "-" else "" in
      match e with
      | Zneg p =>
          if Zpos m mod 2 ^ Zpos p =? 0
          then sign +:+ pretty (Zpos m / 2 ^ Zpos p) +:+ ".0"
          else "?"
      | _ => sign +:+ pretty (Zpos m * 2 ^ e) +:+ ".0"
      end
  | S754_infinity s => if s then "-inf" else "inf"
  | S754_nan => "nan"
  end.

Definition py_str (v : pyval) : string :=
  match v with
  | VNone => "None"
  | VBool b => if b then "True" else "False"
  | VInt z => pretty z
  | VFloat f => float_str f
  | VStr s => s
  end.

(** ** CONSTANTS: clinical thresholds *)

Record range_info := { range_min : pyval; range_max : pyval }.

Definition FIELD_RANGES : gmap string range_info :=
  list_to_map
    [ ("age", {| range_min := VInt 1; range_max := VInt 120 |});
      ("bmi", {| range_min := VFloat 10; range_max := VFloat 70 |});
      ("cholesterol", {| range_min := VInt 50; range_max := VInt 600 |});
      ("systolic", {| range_min := VInt 60; range_max := VInt 300 |});
      ("diastolic", {| range_min := VInt 30; range_max := VInt 200 |}) ].

Definition REQUIRED_FIELDS : list string :=
  ["age"; "bmi"; "cholesterol"; "systolic"; "diastolic"].

(** ** INPUT VALIDATION *)

(** What [validate_inputs] returns: [(is_valid, error_message)]. *)
Definition verdict : Type := bool * option string.

(** A [for] loop whose body may [return]: [Some r] is the returned value,
    [None] means that the loop ran to its end. *)
Fixpoint for_each (body : string -> result (option verdict)) (fields : list string)
    : result (option verdict) :=
  match fields with
  | [] => Ok None
  | field :: rest =>
      r <-- body field ;;
      match r with
      | Some v => Ok (Some v)
      | None => for_each body rest
      end
  end.

(** Statement sequencing after such a loop. *)
Definition and_then (loop : result (option verdict)) (rest : result verdict)
    : result verdict :=
  r <-- loop ;;
  match r with
  | Some v => Ok v
  | None => rest
  end.

Definition age_message : string := "Invalid value for 'age': must be a whole number".
Definition cross_field_message : string := "diastolic must be less than systolic".

(** First loop: missing fields. *)
Definition check_missing (data : gmap string pyval) (field : string)
    : result (option verdict) :=
  if negb (bool_decide (is_Some (data !! field)))
  then Ok (Some (false, Some ("Missing required field: " +:+ field)))
  else
    v <-- py_getitem data field ;;
    if is_None v
    then Ok (Some (false, Some ("Missing required field: " +:+ field)))
    else Ok None.

(** Second loop: field types. *)
Definition check_type (data : gmap string pyval) (field : string)
    : result (option verdict) :=
  v <-- py_getitem data field ;;
  if isinstance_bool v || negb (isinstance_int_float v)
  then Ok (Some (false, Some ("Invalid value for '" +:+ field +:+ "': must be a number")))
  else Ok None.

(** Third loop: whole-number age and individual ranges; [or] evaluates its
    second operand only when the first is false. *)
Definition check_range (data : gmap string pyval) (field : string)
    : result (option verdict) :=
  value <-- py_getitem data field ;;
  range_info <-- py_getitem FIELD_RANGES field ;;
  if String.eqb field "age" && negb (isinstance_int value)
  then Ok (Some (false, Some age_message))
  else
    below <-- py_lt value (range_min range_info) ;;
    out_of_range <-- (if below then Ok true else py_gt value (range_max range_info)) ;;
    if out_of_range
    then Ok (Some (false, Some ("Invalid value for '" +:+ field
                                +:+ "': must be between " +:+ py_str (range_min range_info)
                                +:+ " and " +:+ py_str (range_max range_info))))
    else Ok None.

(** Cross-field validation, the last statements of the function. *)
Definition check_cross_field (data : gmap string pyval) : result verdict :=
  diastolic <-- py_getitem data "diastolic" ;;
  systolic <-- py_getitem data "systolic" ;;
  not_below <-- py_ge diastolic systolic ;;
  if not_below
  then Ok (false, Some cross_field_message)
  else Ok (true, None).

Definition validate_inputs (data : gmap string pyval) : result verdict :=
  and_then (for_each (check_missing data) REQUIRED_FIELDS)
  (and_then (for_each (check_type data) REQUIRED_FIELDS)
  (and_then (for_each (check_range data) REQUIRED_FIELDS)
  (check_cross_field data))).

(** *** The validator as the design document describes it (section 4.1)

    Five check categories in order, each over the fields in declared
    order; the first failing check gives the single message. *)

Definition present (data : gmap string pyval) (field : string) : bool :=
  match data !! field with
  | Some v => negb (is_None v)
  | None => false
  end.

(** Numeric and not a boolean. *)
Definition is_number (v : pyval) : bool :=
  match v with VInt _ | VFloat _ => true | _ => false end.

Definition well_typed (data : gmap string pyval) (field : string) : bool :=
  match data !! field with
  | Some v => is_number v
  | None => false
  end.

Definition age_is_int (data : gmap string pyval) : bool :=
  match data !! "age" with
  | Some v => isinstance_int v
  | None => false
  end.

Definition within (v : pyval) (r : range_info) : bool :=
  match as_number v, as_number (range_min r), as_number (range_max r) with
  | Some x, Some lo, Some hi => negb (num_lt x lo) && negb (num_gt x hi)
  | _, _, _ => false
  end.

Definition in_range (data : gmap string pyval) (field : string) : bool :=
  match data !! field, FIELD_RANGES !! field with
  | Some v, Some r => within v r
  | _, _ => false
  end.

Definition not_below (data : gmap string pyval) (field other : string) : bool :=
  match data !! field, data !! other with
  | Some a, Some b =>
      match as_number a, as_number b with
      | Some x, Some y => num_ge x y
      | _, _ => false
      end
  | _, _ => false
  end.

Definition strictly_below (data : gmap string pyval) (field other : string) : bool :=
  match data !! field, data !! other with
  | Some a, Some b =>
      match as_number a, as_number b with
      | Some x, Some y => num_lt x y
      | _, _ => false
      end
  | _, _ => false
  end.

Definition missing_verdict (field : string) : verdict :=
  (false, Some ("Missing required field: " +:+ field)).
Definition type_verdict (field : string) : verdict :=
  (false, Some ("Invalid value for '" +:+ field +:+ "': must be a number")).
Definition range_verdict (field : string) : verdict :=
  (false,
   Some ("Invalid value for '" +:+ field +:+ "': must be between "
         +:+ from_option (fun r => py_str (range_min r)) "" (FIELD_RANGES !! field)
         +:+ " and "
         +:+ from_option (fun r => py_str (range_max r)) "" (FIELD_RANGES !! field))).

Definition spec_validate (data : gmap string pyval) : verdict :=
  match find (fun f => negb (present data f)) REQUIRED_FIELDS with
  | Some f => missing_verdict f
  | None =>
  match find (fun f => negb (well_typed data f)) REQUIRED_FIELDS with
  | Some f => type_verdict f
  | None =>
  if negb (age_is_int data) then (false, Some age_message) else
  match find (fun f => negb (in_range data f)) REQUIRED_FIELDS with
  | Some f => range_verdict f
  | None =>
  if not_below data "diastolic" "systolic"
  then (false, Some cross_field_message)
  else (true, None)
  end end end.

(** All per-field checks: presence, type, whole-number age, range. *)
Definition per_field_checks_pass (data : gmap string pyval) : bool :=
  forallb (present data) REQUIRED_FIELDS
  && forallb (well_typed data) REQUIRED_FIELDS
  && age_is_int data
  && forallb (in_range data) REQUIRED_FIELDS.

(** [float.is_integer()], and "the value is integral" on objects. *)
Definition float_is_integer (f : float) : bool :=
  match Prim2SF f with
  | S754_zero _ => true
  | S754_finite _ m (Zneg p) => Zpos m mod 2 ^ Zpos p =? 0
  | S754_finite _ _ _ => true
  | _ => false
  end.

Definition integral_value (v : pyval) : bool :=
  match v with
  | VBool _ | VInt _ => true
  | VFloat f => float_is_integer f
  | _ => false
  end.

(** "age is present, numeric and non-boolean but not an integral value". *)
Definition age_not_integral (data : gmap string pyval) : bool :=
  match data !! "age" with
  | Some v => negb (is_None v) && is_number v && negb (integral_value v)
  | None => false
  end.

(** *** Requests used as examples *)

Definition request (age bmi cholesterol systolic diastolic : pyval) : gmap string pyval :=
  <["age" := age]> (<["bmi" := bmi]> (<["cholesterol" := cholesterol]>
    (<["systolic" := systolic]> (<["diastolic" := diastolic]> ∅)))).

Definition request_age_only : gmap string pyval :=
  <["age" := VFloat 30.5]> ∅.
Definition request_age_30_float : gmap string pyval :=
  request (VFloat 30) (VFloat 22.5) (VInt 180) (VInt 120) (VInt 80).
Definition request_age_30_5 : gmap string pyval :=
  request (VFloat 30.5) (VFloat 22.5) (VInt 180) (VInt 120) (VInt 80).
Definition request_age_30 : gmap string pyval :=
  request (VInt 30) (VFloat 22.5) (VInt 180) (VInt 120) (VInt 80).
Definition request_equal_pressures : gmap string pyval :=
  request (VInt 30) (VFloat 22.5) (VInt 180) (VInt 90) (VInt 90).
Definition request_nan_systolic : gmap string pyval :=
  request (VInt 30) (VFloat 22) (VInt 180) (VFloat nan) (VInt 70).

(** ** BLOOD PRESSURE CLASSIFICATION (AHA/ACC 2017) *)

(** The dictionary with the keys [category], [stage] and [color]. *)
Record BPClassification := {
  category : string;
  stage : string;
  color : string
}.

Definition bp_crisis : BPClassification :=
  {| category := "Hypertensive Crisis"; stage := "crisis"; color := "darkred" |}.
Definition bp_stage2 : BPClassification :=
  {| category := "High BP – Stage 2"; stage := "stage2"; color := "red" |}.
Definition bp_stage1 : BPClassification :=
  {| category := "High BP – Stage 1"; stage := "stage1"; color := "orange" |}.
Definition bp_elevated : BPClassification :=
  {| category := "Elevated"; stage := "elevated"; color := "yellow" |}.
Definition bp_normal : BPClassification :=
  {| category := "Normal"; stage := "normal"; color := "green" |}.
Definition bp_unknown : BPClassification :=
  {| category := "Unknown"; stage := "unknown"; color := "gray" |}.

(** [classify_bp(systolic: int, diastolic: int)]: a cascade of [if ... return]. *)
Definition classify_bp (systolic diastolic : Z) : BPClassification :=
  if (systolic >? 180) || (diastolic >? 120) then bp_crisis
  else if (systolic >=? 140) || (diastolic >=? 90) then bp_stage2
  else if ((systolic >=? 130) && (systolic <=? 139))
          || ((diastolic >=? 80) && (diastolic <=? 89)) then bp_stage1
  else if (systolic >=? 120) && (systolic <=? 129) && (diastolic <? 80) then bp_elevated
  else if (systolic <? 120) && (diastolic <? 80) then bp_normal
  else bp_unknown.

(** The rule table of the design document (section 4.2), as ordered
    (predicate, value) pairs; [first_match] is its first-match-wins reading. *)
Definition bp_rule : Type := (Z -> Z -> bool) * BPClassification.

Definition spec_bp_rules : list bp_rule :=
  [ (fun s d => (s >? 180) || (d >? 120), bp_crisis);
    (fun s d => (s >=? 140) || (d >=? 90), bp_stage2);
    (fun s d => ((130 <=? s) && (s <=? 139)) || ((80 <=? d) && (d <=? 89)), bp_stage1);
    (fun s d => ((120 <=? s) && (s <=? 129)) && (d <? 80), bp_elevated);
    (fun s d => (s <? 120) && (d <? 80), bp_normal) ].

Fixpoint first_match (rules : list bp_rule) (fallback : BPClassification)
    (s d : Z) : BPClassification :=
  match rules with
  | [] => fallback
  | (p, v) :: rest => if p s d then v else first_match rest fallback s d
  end.

(** The five named categories, i.e. everything but the fallback. *)
Definition named_category (c : BPClassification) : Prop :=
  c = bp_crisis \/ c = bp_stage2 \/ c = bp_stage1 \/ c = bp_elevated \/ c = bp_normal.

(** ** RISK FACTOR IDENTIFICATION *)

(** [identify_risk_factors(age: int, bmi: float, cholesterol: int,
    systolic: int, diastolic: int)]; [risk_factors.append(x)] is
    [risk_factors ++ [x]].  [bmi >= 35] compares a float with an integer
    literal, which Python does exactly: it is the binary64 comparison with
    the (exactly representable) literal, false when [bmi] is NaN. *)
Definition identify_risk_factors (age : Z) (bmi : float) (cholesterol : Z)
    (systolic diastolic : Z) : list string :=
  let risk_factors := [] in
  (* Systolic BP *)
  let risk_factors :=
    if systolic >=? 180 then risk_factors ++ ["Hypertensive-crisis-level systolic BP"]
    else if systolic >=? 140 then risk_factors ++ ["Stage 2 systolic hypertension"]
    else if systolic >=? 130 then risk_factors ++ ["Stage 1 systolic hypertension"]
    else if systolic >=? 120 then risk_factors ++ ["Elevated systolic BP"]
    else risk_factors in
  (* Diastolic BP *)
  let risk_factors :=
    if diastolic >=? 120 then risk_factors ++ ["Hypertensive-crisis-level diastolic BP"]
    else if diastolic >=? 90 then risk_factors ++ ["Stage 2 diastolic hypertension"]
    else if diastolic >=? 80 then risk_factors ++ ["Stage 1 diastolic hypertension"]
    else risk_factors in
  (* Age factor *)
  let risk_factors :=
    if age >=? 70 then risk_factors ++ ["Advanced age (≥70 yrs)"]
    else if age >=? 60 then risk_factors ++ ["Senior age (≥60 yrs)"]
    else if age >=? 45 then risk_factors ++ ["Middle age (≥45 yrs)"]
    else risk_factors in
  (* BMI *)
  let risk_factors :=
    if (35 <=? bmi)%float then risk_factors ++ ["Severe obesity (BMI ≥35)"]
    else if (30 <=? bmi)%float then risk_factors ++ ["Obesity (BMI ≥30)"]
    else if (25 <=? bmi)%float then risk_factors ++ ["Overweight (BMI ≥25)"]
    else risk_factors in
  (* Total Cholesterol *)
  let risk_factors :=
    if cholesterol >=? 280 then risk_factors ++ ["Very high cholesterol (≥280 mg/dL)"]
    else if cholesterol >=? 240 then risk_factors ++ ["High cholesterol (≥240 mg/dL)"]
    else if cholesterol >=? 200 then risk_factors ++ ["Borderline-high cholesterol (≥200 mg/dL)"]
    else risk_factors in
  risk_factors.

(** ** RISK SCORE CALCULATION *)

(** Python's two-argument [max(a, b)] and [min(a, b)] on integers: the
    first argument is kept unless the second is strictly better. *)
Definition py_max_int (a b : Z) : Z := if b >? a then b else a.
Definition py_min_int (a b : Z) : Z := if b <? a then b else a.

(** The local variable [risk] of [calculate_risk_score] just before the
    final clamp. *)
Definition risk_before_clamp (age : Z) (bmi : float) (cholesterol : Z)
    (systolic diastolic : Z) : Z :=
  let risk := 0 in
  (* Systolic BP *)
  let risk :=
    if systolic >=? 180 then risk + 42
    else if systolic >=? 140 then risk + 35
    else if systolic >=? 130 then risk + 22
    else if systolic >=? 120 then risk + 9
    else risk in
  (* Diastolic BP *)
  let risk :=
    if diastolic >=? 120 then risk + 30
    else if diastolic >=? 90 then risk + 22
    else if diastolic >=? 80 then risk + 12
    else risk in
  (* Age factor *)
  let risk :=
    if age >=? 70 then risk + 14
    else if age >=? 60 then risk + 10
    else if age >=? 45 then risk + 6
    else risk in
  (* BMI *)
  let risk :=
    if (35 <=? bmi)%float then risk + 12
    else if (30 <=? bmi)%float then risk + 8
    else if (25 <=? bmi)%float then risk + 4
    else risk in
  (* Total Cholesterol *)
  let risk :=
    if cholesterol >=? 280 then risk + 10
    else if cholesterol >=? 240 then risk + 7
    else if cholesterol >=? 200 then risk + 3
    else risk in
  risk.

(** [calculate_risk_score]: [return min(100, max(0, risk))]. *)
Definition calculate_risk_score (age : Z) (bmi : float) (cholesterol : Z)
    (systolic diastolic : Z) : Z :=
  py_min_int 100 (py_max_int 0 (risk_before_clamp age bmi cholesterol systolic diastolic)).

(** The threshold ladders as the design document words them (sections 4.3
    and 4.4): per dimension a descending list of (threshold, value) rungs,
    of which the first one reached gives the value, else a default. *)
Fixpoint ladder {T V : Type} (reaches : T -> bool) (rungs : list (T * V))
    (default : V) : V :=
  match rungs with
  | [] => default
  | (threshold, value) :: rest =>
      if reaches threshold then value else ladder reaches rest default
  end.

Definition systolic_ladder : list (Z * Z) := [(180, 42); (140, 35); (130, 22); (120, 9)].
Definition diastolic_ladder : list (Z * Z) := [(120, 30); (90, 22); (80, 12)].
Definition age_ladder : list (Z * Z) := [(70, 14); (60, 10); (45, 6)].
Definition bmi_ladder : list (float * Z) :=
  [(35%float, 12); (30%float, 8); (25%float, 4)].
Definition cholesterol_ladder : list (Z * Z) := [(280, 10); (240, 7); (200, 3)].

Definition spec_weight_sum (age : Z) (bmi : float) (cholesterol : Z)
    (systolic diastolic : Z) : Z :=
  ladder (fun t => t <=? systolic) systolic_ladder 0
  + ladder (fun t => t <=? diastolic) diastolic_ladder 0
  + ladder (fun t => t <=? age) age_ladder 0
  + ladder (fun t => (t <=? bmi)%float) bmi_ladder 0
  + ladder (fun t => t <=? cholesterol) cholesterol_ladder 0.

Definition systolic_labels : list (Z * list string) :=
  [(180, ["Hypertensive-crisis-level systolic BP"]);
   (140, ["Stage 2 systolic hypertension"]);
   (130, ["Stage 1 systolic hypertension"]);
   (120, ["Elevated systolic BP"])].
Definition diastolic_labels : list (Z * list string) :=
  [(120, ["Hypertensive-crisis-level diastolic BP"]);
   (90, ["Stage 2 diastolic hypertension"]);
   (80, ["Stage 1 diastolic hypertension"])].
Definition age_labels : list (Z * list string) :=
  [(70, ["Advanced age (≥70 yrs)"]);
   (60, ["Senior age (≥60 yrs)"]);
   (45, ["Middle age (≥45 yrs)"])].
Definition bmi_labels : list (float * list string) :=
  [(35%float, ["Severe obesity (BMI ≥35)"]);
   (30%float, ["Obesity (BMI ≥30)"]);
   (25%float, ["Overweight (BMI ≥25)"])].
Definition cholesterol_labels : list (Z * list string) :=
  [(280, ["Very high cholesterol (≥280 mg/dL)"]);
   (240, ["High cholesterol (≥240 mg/dL)"]);
   (200, ["Borderline-high cholesterol (≥200 mg/dL)"])].

Definition spec_risk_factors (age : Z) (bmi : float) (cholesterol : Z)
    (systolic diastolic : Z) : list string :=
  ladder (fun t => t <=? systolic) systolic_labels []
  ++ ladder (fun t => t <=? diastolic) diastolic_labels []
  ++ ladder (fun t => t <=? age) age_labels []
  ++ ladder (fun t => (t <=? bmi)%float) bmi_labels []
  ++ ladder (fun t => t <=? cholesterol) cholesterol_labels [].

Definition clamp (lo hi x : Z) : Z := Z.max lo (Z.min hi x).

(** ** Python float primitives used by the confidence estimator *)

(** [int -> float] conversion as done by [int / float]: correctly rounded
    (ties to even), [OverflowError] when the integer is too large. *)
Definition float_of_int (z : Z) : result float :=
  match binary_normalize prec emax z 0 false with
  | S754_infinity _ => Raise OverflowError
  | sf => Ok (SF2Prim sf)
  end.

(** Two-argument [min] and [max] on floats: the first argument is kept
    unless the second is strictly smaller (resp. greater). *)
Definition py_min_float (a b : float) : float := if (b <? a)%float then b else a.
Definition py_max_float (a b : float) : float := if (a <? b)%float then b else a.

(** [base ** 0.5] on floats.  A zero base gives [0.0], a negative base gives
    a complex number (on which the later [round] raises [TypeError]), NaN is
    propagated; otherwise CPython calls libm's [pow], modelled here by the
    correctly rounded square root (lemma [confidence_independent_of_pow_rounding]
    shows that the estimator's result does not depend on the last bit). *)
Definition sqrt_pow (base : float) : result float :=
  if (base =? 0)%float then Ok 0%float
  else if (base <? 0)%float then Raise TypeError
  else Ok (PrimFloat.sqrt base).

(** Nearest integer to [n / d] for [d > 0], ties to the even integer. *)
Definition div_round_half_even (n d : Z) : Z :=
  let q := n / d in
  match 2 * (n mod d) ?= d with
  | Lt => q
  | Gt => q + 1
  | Eq => if Z.even q then q else q + 1
  end.

(** [round(x, 1)] on a float: the exact binary value of [x] is rounded to
    one decimal (ties to even), and the result is the float nearest to that
    decimal; the sign is kept, NaN and infinities are returned unchanged. *)
Definition py_round1 (x : float) : float :=
  match Prim2SF x with
  | S754_finite s m e =>
      let tenths :=
        match e with
        | Zneg p => div_round_half_even (10 * Zpos m) (2 ^ Zpos p)
        | _ => 10 * Zpos m * 2 ^ e
        end in
      match tenths with
      | Zpos t => SF2Prim (SFdiv prec emax (S754_finite s t 0) (S754_finite false 10 0))
      | _ => SF2Prim (S754_zero s)
      end
  | _ => x
  end.

(** ** CONFIDENCE *)

Record ConfidenceResult := {
  confidence : float;
  confidenceBand : string
}.

(** [classify_confidence_band(confidence: float) -> str]. *)
Definition classify_confidence_band (confidence : float) : string :=
  if (confidence <? 72)%float then "Low"
  else if (confidence <=? 82)%float then "Moderate"
  else "High".

Definition DISPLAY_MIN : float := 60%float.
Definition DISPLAY_MAX : float := 90%float.
Definition MAX_DISTANCE : float := 50%float.

(** [calculate_confidence(probabilities, risk_score)], with the
    implementation of [** 0.5] as a parameter. *)
Definition calculate_confidence_with (pow_half : float -> result float)
    (probabilities : list float) (risk_score : Z) : result ConfidenceResult :=
  let distance := Z.abs (risk_score - 50) in
  distance_f <-- float_of_int distance ;;
  let normalised := py_min_float (distance_f / MAX_DISTANCE) 1 in
  curved <-- pow_half normalised ;;
  let confidence :=
    py_round1 (DISPLAY_MIN + curved * (DISPLAY_MAX - DISPLAY_MIN))%float in
  let confidence := py_max_float DISPLAY_MIN (py_min_float DISPLAY_MAX confidence) in
  let band := classify_confidence_band confidence in
  Ok {| confidence := confidence; confidenceBand := band |}.

Definition calculate_confidence : list float -> Z -> result ConfidenceResult :=
  calculate_confidence_with sqrt_pow.

(** *** Executable checks used to go through the risk scores 0..100 *)

Definition band_matches_cutoffs (c : float) (band : string) : bool :=
  Bool.eqb (String.eqb band "Low") (c <? 72)%float
  && Bool.eqb (String.eqb band "Moderate") ((72 <=? c)%float && (c <=? 82)%float)
  && Bool.eqb (String.eqb band "High") (82 <? c)%float.

Definition confidence_checked (risk_score : Z) : bool :=
  match calculate_confidence [] risk_score with
  | Ok r =>
      (60 <=? confidence r)%float && (confidence r <=? 90)%float
      && String.eqb (confidenceBand r) (classify_confidence_band (confidence r))
      && band_matches_cutoffs (confidence r) (confidenceBand r)
  | Raise _ => false
  end.


(** ** Further definitions used by the properties of Part III *)

(** Rungs whose weights are never negative and never increase down the
    ladder. *)
Fixpoint descending {T : Type} (rungs : list (T * Z)) : Prop :=
  match rungs with
  | [] => True
  | (_, w) :: rest =>
      0 <= w /\ Forall (fun rung => 0 <= snd rung <= w) rest /\ descending rest
  end.

(** The band as a function of the risk score, for scores in [0,100]. *)
Definition band_of_risk_score (risk_score : Z) : string :=
  if (43 <=? risk_score) && (risk_score <=? 57) then "Low"
  else if (23 <=? risk_score) && (risk_score <=? 77) then "Moderate"
  else "High".

Definition band_checked (risk_score : Z) : bool :=
  match calculate_confidence [] risk_score with
  | Ok r => String.eqb (confidenceBand r) (band_of_risk_score risk_score)
  | Raise _ => false
  end.

Definition result_leb (a b : result ConfidenceResult) : bool :=
  match a, b with
  | Ok a, Ok b => (confidence a <=? confidence b)%float
  | _, _ => false
  end.

(** One step away from 50 does not lower the confidence. *)
Definition distance_step_checked (distance : Z) : bool :=
  result_leb (calculate_confidence [] (50 + distance))
             (calculate_confidence [] (50 + (distance + 1))).

Definition comparable_checked (risk_score : Z) : bool :=
  result_leb (calculate_confidence [] risk_score) (calculate_confidence [] risk_score).

(** ** The request handler of [backend/app.py] and [build_feature_array]

    Exceptions carry their class and [str(e)], which the handler reads.
    [Unmodelled] marks behaviour left outside the embedding: numpy's and
    [int]'s treatment of non-numeric objects, and request bodies that are
    JSON but not objects; the properties below show that the handler never
    gets there on a JSON object. *)

Inductive exc_kind :=
  | IsValueError | IsKeyError | IsTypeError | IsOverflowError | IsOtherException.

Record pyexc := { exc_class : exc_kind; exc_str : string }.

Inductive outcome (A : Type) :=
  | Returns (a : A)
  | Raises (e : pyexc)
  | Unmodelled.
Arguments Returns {A} a.
Arguments Raises {A} e.
Arguments Unmodelled {A}.

Definition obind {A B} (o : outcome A) (k : A -> outcome B) : outcome B :=
  match o with
  | Returns a => k a
  | Raises e => Raises e
  | Unmodelled => Unmodelled
  end.

Notation "x <~ o ;; k" := (obind o (fun x => k))
  (at level 100, o at next level, right associativity).

(** [data[key]]; [str(KeyError(key))] is the quoted key. *)
Definition getitem (data : gmap string pyval) (key : string) : outcome pyval :=
  match data !! key with
  | Some v => Returns v
  | None => Raises {| exc_class := IsKeyError; exc_str := "'" +:+ key +:+ "'" |}
  end.

(** [int(x)] of a float truncates toward zero. *)
Definition float_trunc (f : float) : outcome Z :=
  match Prim2SF f with
  | S754_nan =>
      Raises {| exc_class := IsValueError;
                exc_str := "cannot convert float NaN to integer" |}
  | S754_infinity _ =>
      Raises {| exc_class := IsOverflowError;
                exc_str := "cannot convert float infinity to integer" |}
  | S754_zero _ => Returns 0
  | S754_finite s m e =>
      let magnitude :=
        match e with
        | Zneg p => Zpos m / 2 ^ Zpos p
        | _ => Zpos m * 2 ^ e
        end in
      Returns (if s then - magnitude else magnitude)
  end.

Definition py_int (v : pyval) : outcome Z :=
  match v with
  | VInt z => Returns z
  | VBool b => Returns (Z.b2z b)
  | VFloat f => float_trunc f
  | VNone | VStr _ => Unmodelled
  end.

(** [float(x)], which is also how numpy fills a [float64] array from
    Python numbers. *)
Definition py_float (v : pyval) : outcome float :=
  match v with
  | VInt z =>
      match float_of_int z with
      | Ok f => Returns f
      | Raise _ =>
          Raises {| exc_class := IsOverflowError;
                    exc_str := "int too large to convert to float" |}
      end
  | VBool b => Returns (if b then 1%float else 0%float)
  | VFloat f => Returns f
  | VNone | VStr _ => Unmodelled
  end.

(** One row of [np.array([[...]], dtype=np.float64)]: the elements are
    converted in order. *)
Fixpoint np_float64_row (values : list pyval) : outcome (list float) :=
  match values with
  | [] => Returns []
  | v :: rest =>
      match py_float v, np_float64_row rest with
      | Unmodelled, _ | _, Unmodelled => Unmodelled
      | Raises e, _ => Raises e
      | Returns _, Raises e => Raises e
      | Returns f, Returns fs => Returns (f :: fs)
      end
  end.

(** [build_feature_array(data)]: the five lookups of the list display come
    first, then the conversion; the result has shape (1, 5). *)
Definition build_feature_array (data : gmap string pyval) : outcome (list (list float)) :=
  age <~ getitem data "age" ;;
  bmi <~ getitem data "bmi" ;;
  cholesterol <~ getitem data "cholesterol" ;;
  systolic <~ getitem data "systolic" ;;
  diastolic <~ getitem data "diastolic" ;;
  row <~ np_float64_row [age; bmi; cholesterol; systolic; diastolic] ;;
  Returns [row].

(** The loaded sklearn pipeline, as far as the handler uses it:
    [model.predict(X)[0]] (an integer class label) and
    [model.predict_proba(X)[0]], each of which may raise. *)
Record classifier := {
  model_predict : list (list float) -> pyexc + Z;
  model_predict_proba : list (list float) -> pyexc + list float
}.

Definition call {A : Type} (r : pyexc + A) : outcome A :=
  match r with
  | inl e => Raises e
  | inr a => Returns a
  end.

(** What [request.get_json()] gave. *)
Inductive request_json :=
  | InvalidJson                               (* it raised *)
  | JsonNull                                  (* it returned None *)
  | JsonObject (data : gmap string pyval)
  | JsonOther.                                (* a list, string, number or boolean *)

(** The dictionaries passed to [jsonify]. *)
Record prediction_response := {
  prediction : Z;
  response_confidence : float;
  response_confidenceBand : string;
  riskScore : Z;
  bpCategory : string;
  bpStage : string;
  bpColor : string;
  riskFactors : list string
}.

(** [ErrorBody error detail]: [detail = None] when the key is absent. *)
Inductive response_body :=
  | ErrorBody (error : option string) (detail : option string)
  | PredictionBody (r : prediction_response).

(** The [try] block of [predict]. *)
Definition predict_try (model : classifier) (data : gmap string pyval)
    : outcome prediction_response :=
  age <~ (v <~ getitem data "age" ;; py_int v) ;;
  bmi <~ (v <~ getitem data "bmi" ;; py_float v) ;;
  cholesterol <~ (v <~ getitem data "cholesterol" ;; py_int v) ;;
  systolic <~ (v <~ getitem data "systolic" ;; py_int v) ;;
  diastolic <~ (v <~ getitem data "diastolic" ;; py_int v) ;;
  X <~ build_feature_array data ;;
  prediction <~ call (model_predict model X) ;;
  probabilities <~ call (model_predict_proba model X) ;;
  let risk_score := calculate_risk_score age bmi cholesterol systolic diastolic in
  conf_result <~ match calculate_confidence probabilities risk_score with
                 | Ok r => Returns r
                 | Raise OverflowError =>
                     Raises {| exc_class := IsOverflowError;
                               exc_str := "int too large to convert to float" |}
                 | Raise _ => Unmodelled
                 end ;;
  let confidence := confidence conf_result in
  let confidence_band := confidenceBand conf_result in
  let bp_info := classify_bp systolic diastolic in
  let risk_factors := identify_risk_factors age bmi cholesterol systolic diastolic in
  Returns {| prediction := prediction;
             response_confidence := confidence;
             response_confidenceBand := confidence_band;
             riskScore := risk_score;
             bpCategory := category bp_info;
             bpStage := stage bp_info;
             bpColor := color bp_info;
             riskFactors := risk_factors |}.

(** [predict()]: the response body and the HTTP status.  [debug] is
    [app.debug]; [model] is the global, [None] when no model is loaded. *)
Definition predict (debug : bool) (model : option classifier) (body : request_json)
    : outcome (response_body * Z) :=
  match model with
  | None =>
      Returns (ErrorBody (Some "Model not loaded. Run train_model.py first.")
                         (Some "FileNotFoundError: model/cdss_model.pkl not found"),
               500)
  | Some model =>
      match body with
      | InvalidJson => Returns (ErrorBody (Some "Invalid JSON in request body") None, 400)
      | JsonNull => Returns (ErrorBody (Some "Request body must be valid JSON") None, 400)
      | JsonOther => Unmodelled
      | JsonObject data =>
          match validate_inputs data with
          | Raise _ => Unmodelled
          | Ok (is_valid, error_message) =>
              if negb is_valid
              then Returns (ErrorBody error_message None, 400)
              else
                match predict_try model data with
                | Returns response => Returns (PredictionBody response, 200)
                | Raises e =>
                    match exc_class e with
                    | IsValueError =>
                        Returns (ErrorBody (Some "Invalid data type for field")
                                           (Some (exc_str e)), 400)
                    | _ =>
                        Returns (ErrorBody (Some "Prediction failed")
                                           (Some (if debug then exc_str e
                                                  else "Internal server error")), 500)
                    end
                | Unmodelled => Unmodelled
                end
          end
      end
  end.

(** A feature equal in value to the object it was built from. *)
Definition same_value (v : option pyval) (f : float) : Prop :=
  match v with
  | Some (VInt z) => compare_int_float z f = Some Eq
  | Some (VFloat g) => f = g
  | _ => False
  end.

Definition exactly_converted (z : Z) : bool :=
  match float_of_int z with
  | Ok f => match compare_int_float z f with Some Eq => true | _ => false end
  | Raise _ => false
  end.

(** The end-to-end example of the design document. *)
Definition request_end_to_end : gmap string pyval :=
  request (VInt 65) (VInt 32) (VInt 250) (VInt 150) (VInt 95).

(** A classifier that always answers class 1, used as an example. *)
Definition constant_classifier : classifier :=
  {| model_predict := fun _ => inr 1;
     model_predict_proba := fun _ => inr [0%float; 1%float] |}.

(** The error [int(float("nan"))] raises. *)
Definition nan_to_integer_error : pyexc :=
  {| exc_class := IsValueError; exc_str := "cannot convert float NaN to integer" |}.

(** [int(v)] succeeds, or [v] is NaN and it raises [ValueError]. *)
Definition int_or_nan (v : pyval) : Prop :=
  (exists z, py_int v = Returns z)
  \/ (v = VFloat nan /\ py_int v = Raises nan_to_integer_error).

(** The values the [try] block of [predict] extracts from the request. *)
Definition extracted (data : gmap string pyval)
    (age : Z) (bmi : float) (cholesterol systolic diastolic : Z) : Prop :=
  (v <~ getitem data "age" ;; py_int v) = Returns age
  /\ (v <~ getitem data "bmi" ;; py_float v) = Returns bmi
  /\ (v <~ getitem data "cholesterol" ;; py_int v) = Returns cholesterol
  /\ (v <~ getitem data "systolic" ;; py_int v) = Returns systolic
  /\ (v <~ getitem data "diastolic" ;; py_int v) = Returns diastolic.

(* ===================================================================== *)
(** * Part II: properties                                                 *)
(* ===================================================================== *)

(** ** BP classifier *)

Lemma classify_bp_first_match s d :
  classify_bp s d = first_match spec_bp_rules bp_unknown s d.
Proof.
  unfold classify_bp; cbn [first_match spec_bp_rules].
  rewrite !Z.geb_leb. reflexivity.
Qed.

(** C1 (as stated, refuted): at systolic 125 / diastolic 85 the classifier
    does not return the Unknown record: neither the record, nor its stage,
    nor its color are those of the fallback. *)
Lemma classify_bp_125_85_not_unknown :
  classify_bp 125 85 <> bp_unknown
  /\ stage (classify_bp 125 85) <> "unknown"
  /\ color (classify_bp 125 85) <> "gray".
Proof. repeat split; vm_compute; discriminate. Qed.

(** C1 (amended): at systolic 125 / diastolic 85 the classifier returns
    High BP - Stage 1 (stage "stage1", color "orange"), because diastolic 85
    lies inside Stage 1's diastolic range [80,89] and the Stage 1 rule is a
    disjunction; the pair passes the crisis and Stage 2 rules first. *)
Theorem classify_bp_125_85_stage1 :
  classify_bp 125 85 = bp_stage1
  /\ stage (classify_bp 125 85) = "stage1"
  /\ color (classify_bp 125 85) = "orange"
  /\ ((125 >? 180) || (85 >? 120) = false)
  /\ ((125 >=? 140) || (85 >=? 90) = false)
  /\ ((85 >=? 80) && (85 <=? 89) = true).
Proof. repeat split; vm_compute; reflexivity. Qed.

(** C2: on integer inputs the classifier always returns one of the five
    named categories; the Unknown fallback is unreachable, since after the
    first three rules systolic < 130 and diastolic < 80. *)
Theorem classify_bp_never_unknown (systolic diastolic : Z) :
  named_category (classify_bp systolic diastolic)
  /\ classify_bp systolic diastolic <> bp_unknown.
Proof.
  unfold classify_bp, named_category.
  destruct ((systolic >? 180) || (diastolic >? 120)) eqn:E1;
    [split; [tauto | discriminate]|].
  destruct ((systolic >=? 140) || (diastolic >=? 90)) eqn:E2;
    [split; [tauto | discriminate]|].
  destruct ((systolic >=? 130) && (systolic <=? 139)
            || (diastolic >=? 80) && (diastolic <=? 89)) eqn:E3;
    [split; [tauto | discriminate]|].
  destruct ((systolic >=? 120) && (systolic <=? 129) && (diastolic <? 80)) eqn:E4;
    [split; [tauto | discriminate]|].
  destruct ((systolic <? 120) && (diastolic <? 80)) eqn:E5;
    [split; [tauto | discriminate]|].
  exfalso.
  apply orb_false_elim in E2 as [E2s E2d], E3 as [E3s E3d].
  rewrite Z.geb_leb in *.
  apply Z.leb_gt in E2s, E2d.
  assert (Hd : diastolic < 80).
  { apply andb_false_iff in E3d as [H | H];
      [apply Z.leb_gt in H | apply Z.leb_gt in H]; lia. }
  assert (Hs : systolic < 130).
  { apply andb_false_iff in E3s as [H | H];
      [apply Z.leb_gt in H | apply Z.leb_gt in H]; lia. }
  apply Z.ltb_lt in Hd as Hd'. rewrite Hd', andb_true_r in E4, E5.
  apply Z.ltb_ge in E5.
  apply andb_false_iff in E4 as [H | H]; apply Z.leb_gt in H; lia.
Qed.

(** C7: the rules are evaluated top-down, first match wins, and the crisis
    rule is strict: (180,80) is Stage 2 and not crisis, (181,80) is crisis,
    (139,70) is Stage 1 and (140,70) is Stage 2. *)
Theorem classify_bp_first_match_boundaries :
  (forall s d, classify_bp s d = first_match spec_bp_rules bp_unknown s d)
  /\ classify_bp 180 80 = bp_stage2
  /\ classify_bp 180 80 <> bp_crisis
  /\ classify_bp 181 80 = bp_crisis
  /\ classify_bp 139 70 = bp_stage1
  /\ classify_bp 140 70 = bp_stage2.
Proof.
  split; [exact classify_bp_first_match|].
  repeat split; try (vm_compute; reflexivity).
  vm_compute. discriminate.
Qed.

(** ** Risk scorer and risk-factor identifier *)

(** Source-level [x = e] followed by more statements is a [let]; the
    lemma names the bound value, so that a proof can follow the statements
    of the function one at a time. *)
Lemma let_elim {A B : Type} (v : A) (body : A -> B) (y : B) :
  (forall x, x = v -> body x = y) -> (let x := v in body x) = y.
Proof. intros H. apply H. reflexivity. Qed.

Ltac next_statement x E :=
  match goal with
  | |- (let y := ?v in @?body y) = ?rhs =>
      refine (let_elim v body rhs _); cbv beta; intros x E
  end.

Ltac split_ladder_in E :=
  repeat match type of E with
  | context [if ?c then _ else _] => destruct c
  end.

Lemma risk_before_clamp_spec age bmi cholesterol systolic diastolic :
  risk_before_clamp age bmi cholesterol systolic diastolic
  = spec_weight_sum age bmi cholesterol systolic diastolic.
Proof.
  cbv delta [risk_before_clamp]; cbv beta.
  next_statement r0 E0.
  next_statement r1 E1.
  assert (H1 : r1 = r0 + ladder (fun t => t <=? systolic) systolic_ladder 0)
    by (cbn [ladder systolic_ladder]; rewrite !Z.geb_leb in E1;
        split_ladder_in E1; lia).
  clear E1. next_statement r2 E2.
  assert (H2 : r2 = r1 + ladder (fun t => t <=? diastolic) diastolic_ladder 0)
    by (cbn [ladder diastolic_ladder]; rewrite !Z.geb_leb in E2;
        split_ladder_in E2; lia).
  clear E2. next_statement r3 E3.
  assert (H3 : r3 = r2 + ladder (fun t => t <=? age) age_ladder 0)
    by (cbn [ladder age_ladder]; rewrite !Z.geb_leb in E3;
        split_ladder_in E3; lia).
  clear E3. next_statement r4 E4.
  assert (H4 : r4 = r3 + ladder (fun t => (t <=? bmi)%float) bmi_ladder 0)
    by (cbn [ladder bmi_ladder]; split_ladder_in E4; lia).
  clear E4. next_statement r5 E5.
  assert (H5 : r5 = r4 + ladder (fun t => t <=? cholesterol) cholesterol_ladder 0)
    by (cbn [ladder cholesterol_ladder]; rewrite !Z.geb_leb in E5;
        split_ladder_in E5; lia).
  unfold spec_weight_sum. lia.
Qed.

Lemma identify_risk_factors_spec age bmi cholesterol systolic diastolic :
  identify_risk_factors age bmi cholesterol systolic diastolic
  = spec_risk_factors age bmi cholesterol systolic diastolic.
Proof.
  cbv delta [identify_risk_factors]; cbv beta.
  next_statement f0 E0.
  next_statement f1 E1.
  assert (H1 : f1 = f0 ++ ladder (fun t => t <=? systolic) systolic_labels [])
    by (cbn [ladder systolic_labels]; rewrite !Z.geb_leb in E1;
        split_ladder_in E1; rewrite ?app_nil_r; exact E1).
  clear E1. next_statement f2 E2.
  assert (H2 : f2 = f1 ++ ladder (fun t => t <=? diastolic) diastolic_labels [])
    by (cbn [ladder diastolic_labels]; rewrite !Z.geb_leb in E2;
        split_ladder_in E2; rewrite ?app_nil_r; exact E2).
  clear E2. next_statement f3 E3.
  assert (H3 : f3 = f2 ++ ladder (fun t => t <=? age) age_labels [])
    by (cbn [ladder age_labels]; rewrite !Z.geb_leb in E3;
        split_ladder_in E3; rewrite ?app_nil_r; exact E3).
  clear E3. next_statement f4 E4.
  assert (H4 : f4 = f3 ++ ladder (fun t => (t <=? bmi)%float) bmi_labels [])
    by (cbn [ladder bmi_labels]; split_ladder_in E4;
        rewrite ?app_nil_r; exact E4).
  clear E4. next_statement f5 E5.
  assert (H5 : f5 = f4 ++ ladder (fun t => t <=? cholesterol) cholesterol_labels [])
    by (cbn [ladder cholesterol_labels]; rewrite !Z.geb_leb in E5;
        split_ladder_in E5; rewrite ?app_nil_r; exact E5).
  clear E5. subst. unfold spec_risk_factors.
  rewrite <- !app_assoc. reflexivity.
Qed.

Lemma ladder_bounds {T : Type} (reaches : T -> bool) (rungs : list (T * Z)) (top : Z) :
  0 <= top ->
  Forall (fun rung => 0 <= snd rung <= top) rungs ->
  0 <= ladder reaches rungs 0 <= top.
Proof.
  intros Htop Hall.
  induction Hall as [| [t w] rest Hw _ IH]; cbn [ladder]; [lia|].
  destruct (reaches t); [exact Hw | exact IH].
Qed.

(** Two ladders over the same thresholds fall through to their defaults
    together, provided no rung carries the default itself. *)
Lemma ladder_default_iff {T V W : Type} (reaches : T -> bool)
    (rungs1 : list (T * V)) (rungs2 : list (T * W)) (d1 : V) (d2 : W) :
  map fst rungs1 = map fst rungs2 ->
  Forall (fun rung => snd rung <> d1) rungs1 ->
  Forall (fun rung => snd rung <> d2) rungs2 ->
  ladder reaches rungs1 d1 = d1 <-> ladder reaches rungs2 d2 = d2.
Proof.
  revert rungs2.
  induction rungs1 as [| [t v] rest1 IH]; intros [| [t' w] rest2] Hfst H1 H2;
    try discriminate Hfst; cbn [ladder]; [tauto|].
  cbn in Hfst. injection Hfst as <- Hrest.
  apply Forall_cons_1 in H1 as [Hv H1], H2 as [Hw H2]. cbn in Hv, Hw.
  destruct (reaches t); [tauto | eauto].
Qed.

Ltac solve_labels :=
  repeat (apply Forall_cons_2; [cbn; discriminate|]); apply Forall_nil_2.

Ltac solve_rungs := repeat (apply Forall_cons_2; [cbn; lia|]); apply Forall_nil_2.

Lemma spec_ladder_bounds age bmi cholesterol systolic diastolic :
  0 <= ladder (fun t => t <=? systolic) systolic_ladder 0 <= 42
  /\ 0 <= ladder (fun t => t <=? diastolic) diastolic_ladder 0 <= 30
  /\ 0 <= ladder (fun t => t <=? age) age_ladder 0 <= 14
  /\ 0 <= ladder (fun t => (t <=? bmi)%float) bmi_ladder 0 <= 12
  /\ 0 <= ladder (fun t => t <=? cholesterol) cholesterol_ladder 0 <= 10.
Proof.
  split; [| split; [| split; [| split]]];
    (apply ladder_bounds; [lia | solve_rungs]).
Qed.

Lemma spec_weight_sum_bounds age bmi cholesterol systolic diastolic :
  0 <= spec_weight_sum age bmi cholesterol systolic diastolic <= 108.
Proof.
  pose proof (spec_ladder_bounds age bmi cholesterol systolic diastolic).
  unfold spec_weight_sum. lia.
Qed.

Lemma py_clamp_int (x : Z) : py_min_int 100 (py_max_int 0 x) = clamp 0 100 x.
Proof.
  unfold py_min_int, py_max_int, clamp.
  destruct (Z.gtb_spec x 0) as [Hx | Hx];
    match goal with |- context [?a <? ?b] => destruct (Z.ltb_spec a b) end; lia.
Qed.

(** C3: the risk score is the clamped sum of at most one weight per
    dimension, taken from the five ladders of the design document; it
    always lies in [0,100]; the sum before clamping is at most 108, and
    108 is attained (where the score is 100). *)
Theorem calculate_risk_score_additive :
  (forall age bmi cholesterol systolic diastolic,
      calculate_risk_score age bmi cholesterol systolic diastolic
      = clamp 0 100 (spec_weight_sum age bmi cholesterol systolic diastolic)
      /\ 0 <= calculate_risk_score age bmi cholesterol systolic diastolic <= 100
      /\ 0 <= spec_weight_sum age bmi cholesterol systolic diastolic <= 108)
  /\ spec_weight_sum 70 35 280 180 120 = 108
  /\ calculate_risk_score 70 35 280 180 120 = 100.
Proof.
  split; [| split; vm_compute; reflexivity].
  intros age bmi cholesterol systolic diastolic.
  unfold calculate_risk_score.
  rewrite py_clamp_int, risk_before_clamp_spec.
  pose proof (spec_weight_sum_bounds age bmi cholesterol systolic diastolic).
  unfold clamp. repeat split; lia.
Qed.

(** C10: the risk score is 0 exactly when no risk factor is reported: in
    every dimension the scorer adds a positive weight on the very rung on
    which the identifier appends a string. *)
Theorem risk_score_zero_iff_no_risk_factors age bmi cholesterol systolic diastolic :
  calculate_risk_score age bmi cholesterol systolic diastolic = 0
  <-> identify_risk_factors age bmi cholesterol systolic diastolic = [].
Proof.
  unfold calculate_risk_score.
  rewrite py_clamp_int, risk_before_clamp_spec, identify_risk_factors_spec.
  pose proof (spec_ladder_bounds age bmi cholesterol systolic diastolic)
    as (Hs & Hd & Ha & Hb & Hc).
  assert (Ls : ladder (fun t => t <=? systolic) systolic_ladder 0 = 0
               <-> ladder (fun t => t <=? systolic) systolic_labels [] = [])
    by (apply ladder_default_iff; [reflexivity | | ]; solve_labels).
  assert (Ld : ladder (fun t => t <=? diastolic) diastolic_ladder 0 = 0
               <-> ladder (fun t => t <=? diastolic) diastolic_labels [] = [])
    by (apply ladder_default_iff; [reflexivity | | ]; solve_labels).
  assert (La : ladder (fun t => t <=? age) age_ladder 0 = 0
               <-> ladder (fun t => t <=? age) age_labels [] = [])
    by (apply ladder_default_iff; [reflexivity | | ]; solve_labels).
  assert (Lb : ladder (fun t => (t <=? bmi)%float) bmi_ladder 0 = 0
               <-> ladder (fun t => (t <=? bmi)%float) bmi_labels [] = [])
    by (apply ladder_default_iff; [reflexivity | | ]; solve_labels).
  assert (Lc : ladder (fun t => t <=? cholesterol) cholesterol_ladder 0 = 0
               <-> ladder (fun t => t <=? cholesterol) cholesterol_labels [] = [])
    by (apply ladder_default_iff; [reflexivity | | ]; solve_labels).
  unfold spec_weight_sum, spec_risk_factors, clamp.
  rewrite !app_nil. rewrite <- Ls, <- Ld, <- La, <- Lb, <- Lc.
  lia.
Qed.

(** ** Input validator *)

(** A loop whose body returns on the fields that are [bad] returns at the
    first such field. *)
Lemma for_each_find (body : string -> result (option verdict))
    (bad : string -> bool) (v : string -> verdict) (fields : list string) :
  Forall (fun f => body f = Ok (if bad f then Some (v f) else None)) fields ->
  for_each body fields = Ok (option_map v (find bad fields)).
Proof.
  induction 1 as [| f rest Hf _ IH]; cbn [for_each find]; [reflexivity|].
  rewrite Hf. cbn [rbind]. destruct (bad f); [reflexivity | exact IH].
Qed.

Lemma find_negb_None {A} (p : A -> bool) (l : list A) :
  find (fun x => negb (p x)) l = None -> forallb p l = true.
Proof.
  induction l as [| x l IH]; cbn [find forallb]; [reflexivity|].
  destruct (p x); cbn [negb andb]; [exact IH | discriminate].
Qed.

Lemma find_negb_Some {A} (p : A -> bool) (l : list A) (x : A) :
  find (fun x => negb (p x)) l = Some x -> forallb p l = false /\ In x l.
Proof.
  induction l as [| y l IH]; cbn [find forallb]; [discriminate|].
  destruct (p y); cbn [negb andb].
  - intros H. destruct (IH H) as [H1 H2]. split; [exact H1 | right; exact H2].
  - intros [= ->]. split; [reflexivity | left; reflexivity].
Qed.

Lemma check_missing_spec data field :
  check_missing data field
  = Ok (if negb (present data field) then Some (missing_verdict field) else None).
Proof.
  unfold check_missing, present, py_getitem.
  destruct (data !! field) as [v |].
  - rewrite bool_decide_eq_true_2 by (eexists; reflexivity).
    cbn [negb rbind]. destruct (is_None v); reflexivity.
  - rewrite bool_decide_eq_false_2 by (apply is_Some_None). reflexivity.
Qed.

Lemma check_type_spec data field :
  present data field = true ->
  check_type data field
  = Ok (if negb (well_typed data field) then Some (type_verdict field) else None).
Proof.
  unfold check_type, present, well_typed, py_getitem.
  destruct (data !! field) as [[] |]; cbn; intros H;
    first [discriminate H | reflexivity].
Qed.

Lemma forallb_In {A} (p : A -> bool) (l : list A) (x : A) :
  forallb p l = true -> In x l -> p x = true.
Proof. intros H Hx. rewrite forallb_forall in H. apply H. exact Hx. Qed.

Lemma FIELD_RANGES_lookup :
  FIELD_RANGES !! "age" = Some {| range_min := VInt 1; range_max := VInt 120 |}
  /\ FIELD_RANGES !! "bmi" = Some {| range_min := VFloat 10; range_max := VFloat 70 |}
  /\ FIELD_RANGES !! "cholesterol" = Some {| range_min := VInt 50; range_max := VInt 600 |}
  /\ FIELD_RANGES !! "systolic" = Some {| range_min := VInt 60; range_max := VInt 300 |}
  /\ FIELD_RANGES !! "diastolic" = Some {| range_min := VInt 30; range_max := VInt 200 |}.
Proof. repeat split; vm_compute; reflexivity. Qed.

(** One iteration of the third loop, for a field of the table holding a
    number. *)
Lemma check_range_spec data field v r :
  data !! field = Some v ->
  is_number v = true ->
  FIELD_RANGES !! field = Some r ->
  is_number (range_min r) = true ->
  is_number (range_max r) = true ->
  check_range data field
  = Ok (if String.eqb field "age" && negb (isinstance_int v)
        then Some (false, Some age_message)
        else if negb (in_range data field) then Some (range_verdict field) else None).
Proof.
  intros Hv Hnum Hr Hlo Hhi.
  unfold check_range, in_range, range_verdict, py_getitem.
  rewrite Hv, Hr. cbn [rbind from_option].
  destruct (String.eqb field "age" && negb (isinstance_int v)); [reflexivity|].
  destruct r as [lo hi]. cbn [range_min range_max] in *.
  unfold within, py_lt, py_gt, py_richcompare. cbn [range_min range_max].
  destruct v; try discriminate Hnum;
    destruct lo; try discriminate Hlo;
    destruct hi; try discriminate Hhi;
    cbn [as_number rbind];
    match goal with
    | |- context [num_lt ?x ?y] => destruct (num_lt x y)
    end; cbn [negb andb rbind]; try reflexivity;
    match goal with
    | |- context [num_gt ?x ?y] => destruct (num_gt x y)
    end; reflexivity.
Qed.

Lemma check_range_all data :
  forallb (well_typed data) REQUIRED_FIELDS = true ->
  Forall (fun field =>
            check_range data field
            = Ok (if String.eqb field "age" && negb (age_is_int data)
                  then Some (false, Some age_message)
                  else if negb (in_range data field)
                       then Some (range_verdict field) else None))
         REQUIRED_FIELDS.
Proof.
  intros Ht.
  destruct FIELD_RANGES_lookup as (Ra & Rb & Rc & Rs & Rd).
  apply List.Forall_forall. intros field Hin.
  pose proof (forallb_In _ _ _ Ht Hin) as Hf. unfold well_typed in Hf.
  destruct (data !! field) as [v |] eqn:Hv; [| discriminate Hf].
  assert (Hage : String.eqb field "age" && negb (age_is_int data)
                 = String.eqb field "age" && negb (isinstance_int v)).
  { destruct (String.eqb_spec field "age") as [-> | _]; [| reflexivity].
    unfold age_is_int. rewrite Hv. reflexivity. }
  rewrite Hage.
  cbn in Hin. destruct Hin as [<- | [<- | [<- | [<- | [<- | []]]]]];
    eapply check_range_spec; eauto.
Qed.

(** The last statements, on two pressures that hold numbers. *)
Lemma check_cross_field_spec data :
  well_typed data "diastolic" = true ->
  well_typed data "systolic" = true ->
  check_cross_field data
  = Ok (if not_below data "diastolic" "systolic"
        then (false, Some cross_field_message) else (true, None)).
Proof.
  unfold well_typed, check_cross_field, not_below, py_getitem.
  destruct (data !! "diastolic") as [a |]; [| discriminate].
  destruct (data !! "systolic") as [b |]; [| discriminate].
  intros Ha Hb. cbn [rbind]. unfold py_ge, py_richcompare.
  destruct a; try discriminate Ha; destruct b; try discriminate Hb;
    cbn [as_number rbind];
    match goal with |- context [num_ge ?x ?y] => destruct (num_ge x y) end;
    reflexivity.
Qed.

(** The validator never raises, and returns what the five ordered check
    categories of the design document give. *)
Theorem validate_inputs_spec data :
  validate_inputs data = Ok (spec_validate data).
Proof.
  unfold validate_inputs, spec_validate.
  rewrite (for_each_find _ (fun f => negb (present data f)) missing_verdict)
    by (apply List.Forall_forall; intros; apply check_missing_spec).
  destruct (find _ REQUIRED_FIELDS) as [f |] eqn:E1; [reflexivity|].
  apply find_negb_None in E1. cbn [and_then rbind option_map].
  rewrite (for_each_find _ (fun f => negb (well_typed data f)) type_verdict)
    by (apply List.Forall_forall; intros f Hf; apply check_type_spec;
        exact (forallb_In _ _ _ E1 Hf)).
  destruct (find _ REQUIRED_FIELDS) as [f |] eqn:E2; [reflexivity|].
  apply find_negb_None in E2. cbn [and_then rbind option_map].
  pose proof (check_range_all data E2) as H3.
  destruct (age_is_int data); cbn [negb] in *.
  - rewrite (for_each_find _ (fun f => negb (in_range data f)) range_verdict).
    2:{ eapply List.Forall_impl; [| exact H3]. cbn beta. intros f ->.
        rewrite andb_false_r. reflexivity. }
    destruct (find _ REQUIRED_FIELDS) as [f |]; [reflexivity|].
    cbn [and_then rbind option_map].
    apply check_cross_field_spec;
      apply (forallb_In _ _ _ E2); cbn; tauto.
  - unfold REQUIRED_FIELDS in *. apply List.Forall_inv in H3.
    rewrite String.eqb_refl in H3. cbn [for_each].
    rewrite H3. reflexivity.
Qed.

Ltac message_clash H :=
  unfold missing_verdict, type_verdict, range_verdict, age_message,
    cross_field_message in H;
  cbn [String.append] in H; discriminate H.

Ltac each_required_field Hin :=
  unfold REQUIRED_FIELDS in Hin; cbn [In] in Hin;
  destruct Hin as [<- | [<- | [<- | [<- | [<- | []]]]]].

(** When the whole-number message is returned. *)
Lemma age_message_iff data :
  validate_inputs data = Ok (false, Some age_message)
  <-> forallb (present data) REQUIRED_FIELDS
      && forallb (well_typed data) REQUIRED_FIELDS
      && negb (age_is_int data) = true.
Proof.
  rewrite validate_inputs_spec. unfold spec_validate.
  destruct (find _ REQUIRED_FIELDS) as [f |] eqn:E1.
  { apply find_negb_Some in E1 as [-> _]. cbn [andb].
    split; intros H; [message_clash H | discriminate H]. }
  apply find_negb_None in E1 as ->. cbn [andb].
  destruct (find _ REQUIRED_FIELDS) as [f |] eqn:E2.
  { apply find_negb_Some in E2 as [-> Hin]. cbn [andb].
    split; intros H; [| discriminate H].
    each_required_field Hin; message_clash H. }
  apply find_negb_None in E2 as ->. cbn [andb].
  destruct (age_is_int data); cbn [negb]; [| tauto].
  split; intros H; [| discriminate H].
  destruct (find _ REQUIRED_FIELDS) as [f |] eqn:E3.
  { apply find_negb_Some in E3 as [_ Hin].
    each_required_field Hin; message_clash H. }
  destruct (not_below data "diastolic" "systolic"); message_clash H.
Qed.

(** The cross-field message is returned exactly when every per-field
    check passes and diastolic >= systolic holds: the check comes last. *)
Lemma cross_field_message_iff data :
  validate_inputs data = Ok (false, Some cross_field_message)
  <-> per_field_checks_pass data && not_below data "diastolic" "systolic" = true.
Proof.
  rewrite validate_inputs_spec. unfold spec_validate, per_field_checks_pass.
  destruct (find _ REQUIRED_FIELDS) as [f |] eqn:E1.
  { apply find_negb_Some in E1 as [-> _]. cbn [andb].
    split; intros H; [message_clash H | discriminate H]. }
  apply find_negb_None in E1 as ->. cbn [andb].
  destruct (find _ REQUIRED_FIELDS) as [f |] eqn:E2.
  { apply find_negb_Some in E2 as [-> _]. cbn [andb].
    split; intros H; [message_clash H | discriminate H]. }
  apply find_negb_None in E2 as ->. cbn [andb].
  destruct (age_is_int data); cbn [negb andb];
    [| split; intros H; [message_clash H | discriminate H]].
  destruct (find _ REQUIRED_FIELDS) as [f |] eqn:E3.
  { apply find_negb_Some in E3 as [-> _]. cbn [andb].
    split; intros H; [message_clash H | discriminate H]. }
  apply find_negb_None in E3 as ->. cbn [andb].
  destruct (not_below data "diastolic" "systolic");
    split; intros H; first [reflexivity | discriminate H].
Qed.

(** A request is accepted exactly when every per-field check passes and
    diastolic >= systolic does not hold. *)
Lemma accepted_iff data :
  validate_inputs data = Ok (true, None)
  <-> per_field_checks_pass data
      && negb (not_below data "diastolic" "systolic") = true.
Proof.
  rewrite validate_inputs_spec. unfold spec_validate, per_field_checks_pass.
  destruct (find _ REQUIRED_FIELDS) as [f |] eqn:E1.
  { apply find_negb_Some in E1 as [-> _]. cbn [andb].
    split; intros H; discriminate H. }
  apply find_negb_None in E1 as ->. cbn [andb].
  destruct (find _ REQUIRED_FIELDS) as [f |] eqn:E2.
  { apply find_negb_Some in E2 as [-> _]. cbn [andb].
    split; intros H; discriminate H. }
  apply find_negb_None in E2 as ->. cbn [andb].
  destruct (age_is_int data); cbn [negb andb];
    [| split; intros H; discriminate H].
  destruct (find _ REQUIRED_FIELDS) as [f |] eqn:E3.
  { apply find_negb_Some in E3 as [-> _]. cbn [andb].
    split; intros H; discriminate H. }
  apply find_negb_None in E3 as ->. cbn [andb].
  destruct (not_below data "diastolic" "systolic");
    split; intros H; first [reflexivity | discriminate H].
Qed.

(** A request whose five fields are present is only unordered in its
    pressures when one of them is NaN. *)
Lemma Prim2SF_nan f : Prim2SF f = S754_nan -> f = nan.
Proof. intros H. apply Prim2SF_inj. rewrite H. reflexivity. Qed.

Lemma compare_int_float_None z f : compare_int_float z f = None -> f = nan.
Proof.
  unfold compare_int_float. intros H. apply Prim2SF_nan.
  destruct (Prim2SF f) as [s | s | | s m e]; try discriminate H; [reflexivity|].
  destruct e; discriminate H.
Qed.

Lemma num_compare_None a b :
  num_compare a b = None -> a = NFloat nan \/ b = NFloat nan.
Proof.
  destruct a as [x | f], b as [y | g]; cbn [num_compare].
  - discriminate.
  - intros H. right. f_equal. exact (compare_int_float_None _ _ H).
  - intros H. left. f_equal. apply (compare_int_float_None y).
    destruct (compare_int_float y f); [discriminate H | reflexivity].
  - rewrite FloatAxioms.compare_spec.
    assert (Hflat : forall c : option comparison,
               match flatten_cmp_opt c with
               | FEq => Some Eq
               | FLt => Some Lt
               | FGt => Some Gt
               | FNotComparable => None
               end = c) by (intros [[] |]; reflexivity).
    rewrite Hflat. clear Hflat.
    destruct (Prim2SF f) as [s | s | | s m e] eqn:Ef;
      [| | left; f_equal; exact (Prim2SF_nan _ Ef) |];
      (destruct (Prim2SF g) as [s' | s' | | s' m' e'] eqn:Eg;
       [| | right; f_equal; exact (Prim2SF_nan _ Eg) |]);
      cbn [SFcompare]; intros H; discriminate H.
Qed.

(** Accepted data satisfies diastolic < systolic as soon as neither
    pressure is NaN. *)
Lemma accepted_strictly_below data :
  validate_inputs data = Ok (true, None) ->
  data !! "systolic" <> Some (VFloat nan) ->
  data !! "diastolic" <> Some (VFloat nan) ->
  strictly_below data "diastolic" "systolic" = true.
Proof.
  intros H Hs Hd. apply accepted_iff in H.
  apply andb_prop in H as [Hp H]. apply negb_true_iff in H.
  unfold per_field_checks_pass in Hp.
  apply andb_prop in Hp as [Hp _]. apply andb_prop in Hp as [Hp _].
  apply andb_prop in Hp as [_ Ht].
  assert (Htd := forallb_In _ _ "diastolic" Ht ltac:(cbn; tauto)).
  assert (Hts := forallb_In _ _ "systolic" Ht ltac:(cbn; tauto)).
  unfold well_typed in Htd, Hts. unfold not_below in H. unfold strictly_below.
  destruct (data !! "diastolic") as [a |]; [| discriminate Htd].
  destruct (data !! "systolic") as [b |]; [| discriminate Hts].
  destruct a as [| | x | f |]; try discriminate Htd;
    destruct b as [| | y | g |]; try discriminate Hts;
    cbn [as_number] in *; unfold num_ge in H; unfold num_lt;
    match goal with
    | |- context [num_compare ?u ?v] =>
        destruct (num_compare u v) as [[] |] eqn:E; try discriminate H;
        [reflexivity | exfalso; destruct (num_compare_None _ _ E) as [E' | E'];
                       congruence]
    end.
Qed.

(** C8 (as stated, refuted): the whole-number message is not returned
    "exactly when age is present, numeric, non-boolean and not integral".
    A request holding only age = 30.5 meets that condition and gets
    "Missing required field: bmi"; a complete request whose age is the
    float 30.0 does not meet it (the value is integral) and gets the
    whole-number message. *)
Lemma age_message_not_exactly_non_integral_age :
  (age_not_integral request_age_only = true
   /\ validate_inputs request_age_only
      = Ok (false, Some "Missing required field: bmi")
   /\ validate_inputs request_age_only <> Ok (false, Some age_message))
  /\ (age_not_integral request_age_30_float = false
      /\ validate_inputs request_age_30_float = Ok (false, Some age_message)).
Proof.
  repeat split; try (vm_compute; reflexivity).
  vm_compute. discriminate.
Qed.

(** C8 (amended): the validator fails with "Invalid value for 'age': must
    be a whole number" exactly when all five fields are present, non-null,
    numeric and non-boolean, and age is not of type int (a float, integral
    or not).  With the other fields valid, age = 30.5 is rejected with this
    message and age = 30 is accepted, next to a non-integral bmi of 22.5:
    bmi is not subject to the check. *)
Theorem age_message_exactly_when_float_age :
  (forall data,
      validate_inputs data = Ok (false, Some age_message)
      <-> forallb (present data) REQUIRED_FIELDS
          && forallb (well_typed data) REQUIRED_FIELDS
          && negb (age_is_int data) = true)
  /\ validate_inputs request_age_30_5 = Ok (false, Some age_message)
  /\ validate_inputs request_age_30 = Ok (true, None)
  /\ request_age_30 !! "bmi" = Some (VFloat 22.5)
  /\ age_message = "Invalid value for 'age': must be a whole number".
Proof.
  split; [exact age_message_iff|].
  repeat split; vm_compute; reflexivity.
Qed.

(** Equal pressures (90/90) are rejected by the cross-field check. *)
Example equal_pressures_rejected :
  validate_inputs request_equal_pressures
  = Ok (false, Some "diastolic must be less than systolic").
Proof. vm_compute. reflexivity. Qed.

(** C9: the cross-field check is meant to leave only data with
    diastolic < systolic, but a NaN systolic passes both its range check
    and the cross-field check: the request is accepted although
    [70 < nan] is false. *)
Theorem validate_accepts_nan_systolic :
  validate_inputs request_nan_systolic = Ok (true, None)
  /\ per_field_checks_pass request_nan_systolic = true
  /\ strictly_below request_nan_systolic "diastolic" "systolic" = false
  /\ py_lt (VInt 70) (VFloat nan) = Ok false.
Proof. repeat split; vm_compute; reflexivity. Qed.

(** ** Confidence estimator *)

Lemma Z_range_forallb (p : Z -> bool) (n : nat) :
  forallb p (map Z.of_nat (seq 0 n)) = true ->
  forall z, 0 <= z < Z.of_nat n -> p z = true.
Proof.
  intros H z Hz. rewrite forallb_forall in H. apply H.
  apply in_map_iff. exists (Z.to_nat z). split; [lia|].
  apply in_seq. lia.
Qed.

Lemma confidence_checked_all :
  forallb confidence_checked (map Z.of_nat (seq 0 101)) = true.
Proof. vm_compute. reflexivity. Qed.

Lemma eqb_bool_iff (b c : bool) (P : Prop) :
  (b = true <-> P) -> Bool.eqb b c = true -> (P <-> c = true).
Proof. intros HP H. apply Bool.eqb_prop in H. subst c. tauto. Qed.

(** C4: for every risk score in [0,100] the confidence lies in
    [60.0, 90.0], and the band is Low exactly below 72.0, Moderate exactly
    from 72.0 to 82.0 included, High exactly above 82.0; in particular
    72.0 and 82.0 both map to Moderate. *)
Theorem confidence_range_and_band (probabilities : list float) (risk_score : Z) :
  0 <= risk_score <= 100 ->
  exists c band,
    calculate_confidence probabilities risk_score
    = Ok {| confidence := c; confidenceBand := band |}
    /\ band = classify_confidence_band c
    /\ (60 <=? c)%float = true /\ (c <=? 90)%float = true
    /\ (band = "Low" <-> (c <? 72)%float = true)
    /\ (band = "Moderate" <-> (72 <=? c)%float && (c <=? 82)%float = true)
    /\ (band = "High" <-> (82 <? c)%float = true)
    /\ classify_confidence_band 72 = "Moderate"
    /\ classify_confidence_band 82 = "Moderate".
Proof.
  intros Hr.
  pose proof (Z_range_forallb _ 101 confidence_checked_all risk_score ltac:(lia)) as H.
  unfold confidence_checked in H.
  change (calculate_confidence [] risk_score)
    with (calculate_confidence probabilities risk_score) in H.
  destruct (calculate_confidence probabilities risk_score) as [[c band] | e];
    [| discriminate H].
  cbn [confidence confidenceBand] in H.
  apply andb_prop in H as [H Hcut]. apply andb_prop in H as [H Hband].
  apply andb_prop in H as [Hlo Hhi].
  apply String.eqb_eq in Hband.
  unfold band_matches_cutoffs in Hcut.
  apply andb_prop in Hcut as [Hcut Hhigh]. apply andb_prop in Hcut as [Hlow Hmod].
  exists c, band. repeat split; try assumption; try reflexivity.
  all: first [ apply (eqb_bool_iff _ _ _ (String.eqb_eq _ _) Hlow)
             | apply (eqb_bool_iff _ _ _ (String.eqb_eq _ _) Hmod)
             | apply (eqb_bool_iff _ _ _ (String.eqb_eq _ _) Hhigh) ].
Qed.

(** The statement of C4 at risk score 42, where the confidence is 72.0. *)
Lemma confidence_range_and_band_witness :
  exists c band,
    calculate_confidence [] 42
    = Ok {| confidence := c; confidenceBand := band |}
    /\ band = classify_confidence_band c
    /\ (60 <=? c)%float = true /\ (c <=? 90)%float = true
    /\ (band = "Low" <-> (c <? 72)%float = true)
    /\ (band = "Moderate" <-> (72 <=? c)%float && (c <=? 82)%float = true)
    /\ (band = "High" <-> (82 <? c)%float = true)
    /\ classify_confidence_band 72 = "Moderate"
    /\ classify_confidence_band 82 = "Moderate".
Proof. apply (confidence_range_and_band [] 42). lia. Defined.

(** The boundary 72.0 is reached (risk scores 42 and 58). *)
Example confidence_72_is_moderate (probabilities : list float) :
  calculate_confidence probabilities 42
  = Ok {| confidence := 72; confidenceBand := "Moderate" |}
  /\ calculate_confidence probabilities 58
     = Ok {| confidence := 72; confidenceBand := "Moderate" |}.
Proof. split; vm_compute; reflexivity. Qed.

(** C5: at risk score 50 the confidence is 60.0 with band Low; at 0 and at
    100 it is 90.0 with band High; at these points it is
    round(60 + sqrt(min(|r - 50| / 50, 1.0)) * 30, 1). *)
Theorem confidence_at_50_0_100 (probabilities : list float) :
  calculate_confidence probabilities 50
  = Ok {| confidence := 60; confidenceBand := "Low" |}
  /\ calculate_confidence probabilities 0
     = Ok {| confidence := 90; confidenceBand := "High" |}
  /\ calculate_confidence probabilities 100
     = Ok {| confidence := 90; confidenceBand := "High" |}
  /\ py_round1 (60 + PrimFloat.sqrt (py_min_float (0 / 50) 1) * 30)%float = 60%float
  /\ py_round1 (60 + PrimFloat.sqrt (py_min_float (50 / 50) 1) * 30)%float = 90%float.
Proof. repeat split; vm_compute; reflexivity. Qed.

(** C6: the probabilities argument is never read: any two probability
    inputs give the same confidence and band. *)
Theorem confidence_ignores_probabilities (p1 p2 : list float) (risk_score : Z) :
  calculate_confidence p1 risk_score = calculate_confidence p2 risk_score.
Proof. reflexivity. Qed.

(** ** Independence from the rounding of libm's [pow] *)






(* ===================================================================== *)
(** * Part III: further properties of the rule engine                     *)
(* ===================================================================== *)

(** ** Order facts on binary64 comparisons *)

Ltac split_compare :=
  repeat match goal with
  | H : context [Z.compare ?x ?y] |- _ => destruct (Z.compare_spec x y)
  | |- context [Z.compare ?x ?y] => destruct (Z.compare_spec x y)
  | H : context [Pos.compare_cont Eq ?x ?y] |- _ =>
      change (Pos.compare_cont Eq x y) with (Pos.compare x y) in *;
      destruct (Pos.compare_spec x y)
  | |- context [Pos.compare_cont Eq ?x ?y] =>
      change (Pos.compare_cont Eq x y) with (Pos.compare x y) in *;
      destruct (Pos.compare_spec x y)
  end.

Lemma SFleb_trans a b c :
  SFleb a b = true -> SFleb b c = true -> SFleb a c = true.
Proof.
  unfold SFleb, SFcompare.
  destruct a as [sa | [] | | [] ma ea], b as [sb | [] | | [] mb eb],
           c as [sc | [] | | [] mc ec];
    try (intros; reflexivity); try (intros; discriminate);
    intros Hab Hbc; split_compare; cbn in *;
    first [reflexivity | discriminate | lia].
Qed.

Lemma float_leb_trans (x y z : float) :
  (x <=? y)%float = true -> (y <=? z)%float = true -> (x <=? z)%float = true.
Proof. rewrite !FloatAxioms.leb_spec. apply SFleb_trans. Qed.

(** ** BP classifier: the region of each category *)

Ltac bools_to_props :=
  repeat match goal with
  | H : _ || _ = true |- _ => apply orb_true_iff in H
  | H : _ || _ = false |- _ => apply orb_false_iff in H
  | H : _ && _ = true |- _ => apply andb_true_iff in H
  | H : _ && _ = false |- _ => apply andb_false_iff in H
  | H : _ /\ _ |- _ => destruct H
  | H : _ \/ _ |- _ => destruct H
  | H : (_ >? _) = true |- _ => rewrite Z.gtb_ltb in H; apply Z.ltb_lt in H
  | H : (_ >? _) = false |- _ => rewrite Z.gtb_ltb in H; apply Z.ltb_ge in H
  | H : (_ >=? _) = true |- _ => rewrite Z.geb_leb in H; apply Z.leb_le in H
  | H : (_ >=? _) = false |- _ => rewrite Z.geb_leb in H; apply Z.leb_gt in H
  | H : (_ <=? _) = true |- _ => apply Z.leb_le in H
  | H : (_ <=? _) = false |- _ => apply Z.leb_gt in H
  | H : (_ <? _) = true |- _ => apply Z.ltb_lt in H
  | H : (_ <? _) = false |- _ => apply Z.ltb_ge in H
  end.

Lemma classify_bp_region_of (systolic diastolic : Z) :
  (classify_bp systolic diastolic = bp_crisis
   <-> systolic > 180 \/ diastolic > 120)
  /\ (classify_bp systolic diastolic = bp_stage2
      <-> systolic <= 180 /\ diastolic <= 120 /\ (systolic >= 140 \/ diastolic >= 90))
  /\ (classify_bp systolic diastolic = bp_stage1
      <-> systolic <= 139 /\ diastolic <= 89 /\ (systolic >= 130 \/ diastolic >= 80))
  /\ (classify_bp systolic diastolic = bp_elevated
      <-> 120 <= systolic <= 129 /\ diastolic < 80)
  /\ (classify_bp systolic diastolic = bp_normal
      <-> systolic < 120 /\ diastolic < 80).
Proof.
  unfold classify_bp.
  destruct ((systolic >? 180) || (diastolic >? 120)) eqn:E1;
  [| destruct ((systolic >=? 140) || (diastolic >=? 90)) eqn:E2;
  [| destruct ((systolic >=? 130) && (systolic <=? 139)
               || (diastolic >=? 80) && (diastolic <=? 89)) eqn:E3;
  [| destruct ((systolic >=? 120) && (systolic <=? 129) && (diastolic <? 80)) eqn:E4;
  [| destruct ((systolic <? 120) && (diastolic <? 80)) eqn:E5]]]];
  bools_to_props;
  repeat match goal with
         | |- _ /\ _ => split
         | |- _ <-> _ => split
         end;
  intros Hgoal; first [discriminate Hgoal | reflexivity | lia].
Qed.

(** ** Risk scorer: monotonicity *)

Lemma ladder_monotone {T : Type} (reaches reaches' : T -> bool) (rungs : list (T * Z)) :
  (forall t, reaches t = true -> reaches' t = true) ->
  descending rungs ->
  ladder reaches rungs 0 <= ladder reaches' rungs 0.
Proof.
  intros Hsub. induction rungs as [| [t w] rest IH]; cbn [ladder descending]; [lia|].
  intros (Hw & Hrest & Hdesc).
  destruct (reaches t) eqn:Et.
  - rewrite (Hsub t Et). lia.
  - destruct (reaches' t).
    + apply (ladder_bounds reaches rest w Hw Hrest).
    + exact (IH Hdesc).
Qed.

Ltac solve_descending :=
  unfold systolic_ladder, diastolic_ladder, age_ladder, bmi_ladder,
    cholesterol_ladder;
  cbn [descending];
  repeat match goal with
         | |- _ /\ _ => split
         | |- True => exact I
         | |- (_ <= _)%Z => lia
         | |- Forall _ _ => solve_rungs
         end.

(** X1: raising any of the five inputs never lowers the risk score. *)
Theorem calculate_risk_score_monotone
    (age age' : Z) (bmi bmi' : float) (cholesterol cholesterol' : Z)
    (systolic systolic' diastolic diastolic' : Z) :
  age <= age' ->
  (bmi <=? bmi')%float = true ->
  cholesterol <= cholesterol' ->
  systolic <= systolic' ->
  diastolic <= diastolic' ->
  calculate_risk_score age bmi cholesterol systolic diastolic
  <= calculate_risk_score age' bmi' cholesterol' systolic' diastolic'.
Proof.
  intros Ha Hb Hc Hs Hd.
  unfold calculate_risk_score.
  rewrite !py_clamp_int, !risk_before_clamp_spec.
  unfold spec_weight_sum, clamp.
  assert (Ls : ladder (fun t => t <=? systolic) systolic_ladder 0
               <= ladder (fun t => t <=? systolic') systolic_ladder 0).
  { apply ladder_monotone; [| solve_descending].
    intros t Ht. apply Z.leb_le in Ht. apply Z.leb_le. lia. }
  assert (Ld : ladder (fun t => t <=? diastolic) diastolic_ladder 0
               <= ladder (fun t => t <=? diastolic') diastolic_ladder 0).
  { apply ladder_monotone; [| solve_descending].
    intros t Ht. apply Z.leb_le in Ht. apply Z.leb_le. lia. }
  assert (La : ladder (fun t => t <=? age) age_ladder 0
               <= ladder (fun t => t <=? age') age_ladder 0).
  { apply ladder_monotone; [| solve_descending].
    intros t Ht. apply Z.leb_le in Ht. apply Z.leb_le. lia. }
  assert (Lb : ladder (fun t => (t <=? bmi)%float) bmi_ladder 0
               <= ladder (fun t => (t <=? bmi')%float) bmi_ladder 0).
  { apply ladder_monotone; [| solve_descending].
    intros t Ht. exact (float_leb_trans _ _ _ Ht Hb). }
  assert (Lc : ladder (fun t => t <=? cholesterol) cholesterol_ladder 0
               <= ladder (fun t => t <=? cholesterol') cholesterol_ladder 0).
  { apply ladder_monotone; [| solve_descending].
    intros t Ht. apply Z.leb_le in Ht. apply Z.leb_le. lia. }
  lia.
Qed.

Lemma calculate_risk_score_monotone_witness :
  calculate_risk_score 44 24.5 199 119 79 <= calculate_risk_score 45 25 200 120 80.
Proof.
  apply calculate_risk_score_monotone; first [lia | vm_compute; reflexivity].
Defined.

(** ** Risk-factor identifier *)

Ltac split_int_ladder :=
  repeat match goal with
  | |- context [?a <=? ?b] => destruct (Z.leb_spec a b)
  end;
  split; intros Hgoal; first [discriminate | reflexivity | lia].

(** X2: no risk factor is reported exactly when every input is below the
    lowest rung of its ladder. *)
Theorem no_risk_factors_iff (age : Z) (bmi : float) (cholesterol systolic diastolic : Z) :
  identify_risk_factors age bmi cholesterol systolic diastolic = []
  <-> systolic < 120 /\ diastolic < 80 /\ age < 45
      /\ (25 <=? bmi)%float = false /\ cholesterol < 200.
Proof.
  rewrite identify_risk_factors_spec. unfold spec_risk_factors.
  assert (Ls : ladder (fun t => t <=? systolic) systolic_labels [] = []
               <-> systolic < 120)
    by (cbn [ladder systolic_labels]; split_int_ladder).
  assert (Ld : ladder (fun t => t <=? diastolic) diastolic_labels [] = []
               <-> diastolic < 80)
    by (cbn [ladder diastolic_labels]; split_int_ladder).
  assert (La : ladder (fun t => t <=? age) age_labels [] = [] <-> age < 45)
    by (cbn [ladder age_labels]; split_int_ladder).
  assert (Lc : ladder (fun t => t <=? cholesterol) cholesterol_labels [] = []
               <-> cholesterol < 200)
    by (cbn [ladder cholesterol_labels]; split_int_ladder).
  assert (Lb : ladder (fun t => (t <=? bmi)%float) bmi_labels [] = []
               <-> (25 <=? bmi)%float = false).
  { cbn [ladder bmi_labels].
    assert (H30 : (30 <=? bmi)%float = true -> (25 <=? bmi)%float = true)
      by (apply float_leb_trans; vm_compute; reflexivity).
    assert (H35 : (35 <=? bmi)%float = true -> (25 <=? bmi)%float = true)
      by (apply float_leb_trans; vm_compute; reflexivity).
    destruct (35 <=? bmi)%float; destruct (30 <=? bmi)%float;
      destruct (25 <=? bmi)%float;
      try (specialize (H30 eq_refl)); try (specialize (H35 eq_refl));
      split; intros Hgoal; first [discriminate | reflexivity]. }
  rewrite !app_nil, Ls, Ld, La, Lb, Lc. tauto.
Qed.

(** X3: each named category is returned exactly on its region of the
    (systolic, diastolic) plane. *)
Theorem classify_bp_regions (systolic diastolic : Z) :
  (classify_bp systolic diastolic = bp_crisis
   <-> systolic > 180 \/ diastolic > 120)
  /\ (classify_bp systolic diastolic = bp_stage2
      <-> systolic <= 180 /\ diastolic <= 120 /\ (systolic >= 140 \/ diastolic >= 90))
  /\ (classify_bp systolic diastolic = bp_stage1
      <-> systolic <= 139 /\ diastolic <= 89 /\ (systolic >= 130 \/ diastolic >= 80))
  /\ (classify_bp systolic diastolic = bp_elevated
      <-> 120 <= systolic <= 129 /\ diastolic < 80)
  /\ (classify_bp systolic diastolic = bp_normal
      <-> systolic < 120 /\ diastolic < 80).
Proof. exact (classify_bp_region_of systolic diastolic). Qed.

Lemma ladder_at_most_one {T A : Type} (reaches : T -> bool)
    (rungs : list (T * list A)) :
  Forall (fun rung => (length (snd rung) <= 1)%nat) rungs ->
  (length (ladder reaches rungs []) <= 1)%nat.
Proof.
  induction 1 as [| [t l] rest Hl _ IH]; cbn [ladder length]; [lia|].
  destruct (reaches t); [exact Hl | exact IH].
Qed.

Ltac solve_singletons :=
  repeat (apply Forall_cons_2; [cbn; lia|]); apply Forall_nil_2.

(** X4: the risk factors are the per-dimension first-match labels in the
    fixed order systolic, diastolic, age, bmi, cholesterol: at most one
    per dimension, hence at most five. *)
Theorem identify_risk_factors_one_per_dimension
    (age : Z) (bmi : float) (cholesterol systolic diastolic : Z) :
  identify_risk_factors age bmi cholesterol systolic diastolic
  = ladder (fun t => t <=? systolic) systolic_labels []
    ++ ladder (fun t => t <=? diastolic) diastolic_labels []
    ++ ladder (fun t => t <=? age) age_labels []
    ++ ladder (fun t => (t <=? bmi)%float) bmi_labels []
    ++ ladder (fun t => t <=? cholesterol) cholesterol_labels []
  /\ (length (identify_risk_factors age bmi cholesterol systolic diastolic) <= 5)%nat.
Proof.
  rewrite identify_risk_factors_spec. split; [reflexivity|].
  unfold spec_risk_factors. rewrite !length_app.
  pose proof (ladder_at_most_one (fun t => t <=? systolic) systolic_labels
                ltac:(solve_singletons)).
  pose proof (ladder_at_most_one (fun t => t <=? diastolic) diastolic_labels
                ltac:(solve_singletons)).
  pose proof (ladder_at_most_one (fun t => t <=? age) age_labels
                ltac:(solve_singletons)).
  pose proof (ladder_at_most_one (fun t => (t <=? bmi)%float) bmi_labels
                ltac:(solve_singletons)).
  pose proof (ladder_at_most_one (fun t => t <=? cholesterol) cholesterol_labels
                ltac:(solve_singletons)).
  lia.
Qed.

(** ** BP category against risk score *)

(** X5: a Normal blood pressure contributes nothing to the score, which
    then cannot exceed 36 (the age, bmi and cholesterol maxima). *)
Theorem normal_bp_caps_risk_score
    (age : Z) (bmi : float) (cholesterol systolic diastolic : Z) :
  classify_bp systolic diastolic = bp_normal ->
  calculate_risk_score age bmi cholesterol systolic diastolic <= 36.
Proof.
  intros H.
  apply (classify_bp_region_of systolic diastolic) in H as [Hs Hd].
  unfold calculate_risk_score. rewrite py_clamp_int, risk_before_clamp_spec.
  pose proof (spec_ladder_bounds age bmi cholesterol systolic diastolic)
    as (_ & _ & Ha & Hb & Hc).
  unfold spec_weight_sum, clamp.
  cbn [ladder systolic_ladder diastolic_ladder] in *.
  repeat match goal with
  | |- context [?a <=? systolic] => destruct (Z.leb_spec a systolic); [lia|]
  | |- context [?a <=? diastolic] => destruct (Z.leb_spec a diastolic); [lia|]
  end.
  lia.
Qed.

Lemma normal_bp_caps_risk_score_witness :
  calculate_risk_score 80 40 300 119 79 <= 36.
Proof. apply normal_bp_caps_risk_score. vm_compute. reflexivity. Defined.

(** X6: a Hypertensive Crisis or Stage 2 blood pressure alone brings the
    score to at least 22, a crisis to at least 30. *)
Theorem high_bp_floors_risk_score
    (age : Z) (bmi : float) (cholesterol systolic diastolic : Z) :
  classify_bp systolic diastolic = bp_crisis
  \/ classify_bp systolic diastolic = bp_stage2 ->
  22 <= calculate_risk_score age bmi cholesterol systolic diastolic
  /\ (classify_bp systolic diastolic = bp_crisis ->
      30 <= calculate_risk_score age bmi cholesterol systolic diastolic).
Proof.
  intros H.
  assert (Hreg : (systolic >= 140 \/ diastolic >= 90)
                 /\ (classify_bp systolic diastolic = bp_crisis ->
                     systolic > 180 \/ diastolic > 120)).
  { pose proof (classify_bp_region_of systolic diastolic) as (Hc & H2 & _).
    split; [| apply Hc].
    destruct H as [H | H]; [apply Hc in H | apply H2 in H]; lia. }
  destruct Hreg as [Hfloor Hcrisis].
  unfold calculate_risk_score. rewrite py_clamp_int, risk_before_clamp_spec.
  pose proof (spec_ladder_bounds age bmi cholesterol systolic diastolic)
    as (Hs & Hd & Ha & Hb & Hc).
  unfold spec_weight_sum, clamp.
  assert (Ls : (systolic >= 140 ->
                35 <= ladder (fun t => t <=? systolic) systolic_ladder 0)
               /\ (systolic > 180 ->
                   42 <= ladder (fun t => t <=? systolic) systolic_ladder 0)).
  { cbn [ladder systolic_ladder].
    destruct (Z.leb_spec 180 systolic); [lia|].
    destruct (Z.leb_spec 140 systolic); lia. }
  assert (Ld : (diastolic >= 90 ->
                22 <= ladder (fun t => t <=? diastolic) diastolic_ladder 0)
               /\ (diastolic > 120 ->
                   30 <= ladder (fun t => t <=? diastolic) diastolic_ladder 0)).
  { cbn [ladder diastolic_ladder].
    destruct (Z.leb_spec 120 diastolic); [lia|].
    destruct (Z.leb_spec 90 diastolic); lia. }
  split; [lia | intros Hc'; specialize (Hcrisis Hc'); lia].
Qed.

Lemma high_bp_floors_risk_score_witness :
  22 <= calculate_risk_score 30 22 180 150 70
  /\ (classify_bp 150 70 = bp_crisis -> 30 <= calculate_risk_score 30 22 180 150 70).
Proof. apply high_bp_floors_risk_score. right. vm_compute. reflexivity. Defined.

(** ** Input validator: further properties *)

Lemma validate_inputs_shape (data : gmap string pyval) :
  validate_inputs data = Ok (true, None)
  \/ exists message, validate_inputs data = Ok (false, Some message).
Proof.
  rewrite validate_inputs_spec.
  unfold spec_validate, missing_verdict, type_verdict, range_verdict.
  repeat match goal with
  | |- context [match ?x with _ => _ end] => destruct x
  end; eauto.
Qed.

(** X7: the validator never raises, whatever the dictionary holds, and
    returns the message of the first failing check in the order missing
    field, field type, whole-number age, field range, cross-field, each
    over the fields in declared order. *)
Theorem validate_inputs_never_raises (data : gmap string pyval) :
  validate_inputs data = Ok (spec_validate data)
  /\ (validate_inputs data = Ok (true, None)
      \/ exists message, validate_inputs data = Ok (false, Some message)).
Proof. split; [apply validate_inputs_spec | apply validate_inputs_shape]. Qed.

(** X8: the cross-field message is returned exactly when every per-field
    check passes and diastolic >= systolic holds, and a request is accepted
    exactly when every per-field check passes and it does not hold. *)
Theorem cross_field_check_is_last (data : gmap string pyval) :
  (validate_inputs data = Ok (false, Some "diastolic must be less than systolic")
   <-> per_field_checks_pass data && not_below data "diastolic" "systolic" = true)
  /\ (validate_inputs data = Ok (true, None)
      <-> per_field_checks_pass data
          && negb (not_below data "diastolic" "systolic") = true).
Proof. split; [apply cross_field_message_iff | apply accepted_iff]. Qed.

(** X9: in accepted data neither pressure being NaN, diastolic is
    strictly below systolic. *)
Theorem accepted_pressures_ordered (data : gmap string pyval) :
  validate_inputs data = Ok (true, None) ->
  data !! "systolic" <> Some (VFloat nan) ->
  data !! "diastolic" <> Some (VFloat nan) ->
  strictly_below data "diastolic" "systolic" = true.
Proof. apply accepted_strictly_below. Qed.

Lemma accepted_pressures_ordered_witness :
  strictly_below request_age_30 "diastolic" "systolic" = true.
Proof.
  apply accepted_pressures_ordered;
    [vm_compute; reflexivity | vm_compute; discriminate | vm_compute; discriminate].
Defined.

Lemma find_ext_in {A : Type} (p q : A -> bool) (l : list A) :
  (forall x, In x l -> p x = q x) -> find p l = find q l.
Proof.
  induction l as [| x l IH]; intros H; cbn [find]; [reflexivity|].
  rewrite (H x (or_introl eq_refl)).
  destruct (q x); [reflexivity|].
  apply IH. intros y Hy. apply H. right. exact Hy.
Qed.

Lemma spec_validate_agree (d1 d2 : gmap string pyval) :
  (forall f, In f REQUIRED_FIELDS -> d1 !! f = d2 !! f) ->
  spec_validate d1 = spec_validate d2.
Proof.
  intros H. unfold spec_validate.
  rewrite (find_ext_in (fun f => negb (present d1 f)) (fun f => negb (present d2 f)))
    by (intros f Hf; unfold present; rewrite (H f Hf); reflexivity).
  rewrite (find_ext_in (fun f => negb (well_typed d1 f)) (fun f => negb (well_typed d2 f)))
    by (intros f Hf; unfold well_typed; rewrite (H f Hf); reflexivity).
  rewrite (find_ext_in (fun f => negb (in_range d1 f)) (fun f => negb (in_range d2 f)))
    by (intros f Hf; unfold in_range; rewrite (H f Hf); reflexivity).
  unfold age_is_int, not_below.
  rewrite (H "age"), (H "diastolic"), (H "systolic") by (cbn; tauto).
  reflexivity.
Qed.

(** X10: the validator reads the five required keys only: two dictionaries
    that agree on them get the same verdict, so extra keys are ignored. *)
Theorem validate_inputs_reads_required_fields_only (d1 d2 : gmap string pyval) :
  (forall f, In f REQUIRED_FIELDS -> d1 !! f = d2 !! f) ->
  validate_inputs d1 = validate_inputs d2.
Proof.
  intros H. rewrite !validate_inputs_spec. f_equal.
  apply spec_validate_agree. exact H.
Qed.

Lemma validate_inputs_reads_required_fields_only_witness :
  validate_inputs request_age_30
  = validate_inputs (<["name" := VStr "Ann"]> (<["sex" := VNone]> request_age_30)).
Proof.
  apply validate_inputs_reads_required_fields_only.
  intros f Hf. cbn in Hf.
  destruct Hf as [<- | [<- | [<- | [<- | [<- | []]]]]]; vm_compute; reflexivity.
Defined.

Lemma within_int_bounds (z lo hi : Z) :
  within (VInt z) {| range_min := VInt lo; range_max := VInt hi |} = true ->
  lo <= z <= hi.
Proof.
  unfold within, num_lt, num_gt. cbn.
  destruct (Z.compare_spec z lo); destruct (Z.compare_spec z hi);
    cbn; intros Hw; first [discriminate Hw | lia].
Qed.

(** X11: an accepted request holds a number (never a boolean, None or a
    string) under each of the five keys; its age is an integer from 1 to
    120, and its integer cholesterol, systolic and diastolic values lie in
    [50,600], [60,300] and [30,200]. *)
Theorem accepted_values_in_range (data : gmap string pyval) :
  validate_inputs data = Ok (true, None) ->
  (forall f, In f REQUIRED_FIELDS ->
             exists v, data !! f = Some v /\ is_number v = true)
  /\ (exists z, data !! "age" = Some (VInt z) /\ 1 <= z <= 120)
  /\ (forall z, data !! "cholesterol" = Some (VInt z) -> 50 <= z <= 600)
  /\ (forall z, data !! "systolic" = Some (VInt z) -> 60 <= z <= 300)
  /\ (forall z, data !! "diastolic" = Some (VInt z) -> 30 <= z <= 200).
Proof.
  intros H. apply accepted_iff in H.
  apply andb_prop in H as [H _]. unfold per_field_checks_pass in H.
  apply andb_prop in H as [H Hr]. apply andb_prop in H as [H Ha].
  apply andb_prop in H as [_ Ht].
  destruct FIELD_RANGES_lookup as (Ra & Rb & Rc & Rs & Rd).
  assert (Hin : forall f z lo hi,
             In f REQUIRED_FIELDS ->
             FIELD_RANGES !! f = Some {| range_min := VInt lo; range_max := VInt hi |} ->
             data !! f = Some (VInt z) -> lo <= z <= hi).
  { intros f z lo hi Hf Hlook Hz.
    pose proof (forallb_In _ _ _ Hr Hf) as Hfr.
    unfold in_range in Hfr. rewrite Hz, Hlook in Hfr.
    apply within_int_bounds. exact Hfr. }
  split; [| split; [| split; [| split]]].
  - intros f Hf. pose proof (forallb_In _ _ _ Ht Hf) as Hft.
    unfold well_typed in Hft.
    destruct (data !! f) as [v |]; [eauto | discriminate Hft].
  - pose proof (forallb_In _ _ "age" Ht ltac:(cbn; tauto)) as Hta.
    unfold well_typed in Hta. unfold age_is_int in Ha.
    destruct (data !! "age") as [[| b | z | f | s] |] eqn:E;
      try discriminate Hta; try discriminate Ha.
    exists z. split; [reflexivity|].
    apply (Hin "age" z 1 120); [cbn; tauto | exact Ra | exact E].
  - intros z. apply (Hin "cholesterol"); [cbn; tauto | exact Rc].
  - intros z. apply (Hin "systolic"); [cbn; tauto | exact Rs].
  - intros z. apply (Hin "diastolic"); [cbn; tauto | exact Rd].
Qed.

Lemma accepted_values_in_range_witness :
  (forall f, In f REQUIRED_FIELDS ->
             exists v, request_age_30 !! f = Some v /\ is_number v = true)
  /\ (exists z, request_age_30 !! "age" = Some (VInt z) /\ 1 <= z <= 120)
  /\ (forall z, request_age_30 !! "cholesterol" = Some (VInt z) -> 50 <= z <= 600)
  /\ (forall z, request_age_30 !! "systolic" = Some (VInt z) -> 60 <= z <= 300)
  /\ (forall z, request_age_30 !! "diastolic" = Some (VInt z) -> 30 <= z <= 200).
Proof. apply accepted_values_in_range. vm_compute. reflexivity. Defined.

(** ** Confidence estimator: further properties *)

(** X12: the confidence depends on the risk score only through its distance
    to 50: scores r and 100 - r get the same result, for every integer r. *)
Theorem calculate_confidence_symmetric (probabilities : list float) (risk_score : Z) :
  calculate_confidence probabilities (100 - risk_score)
  = calculate_confidence probabilities risk_score.
Proof.
  unfold calculate_confidence, calculate_confidence_with.
  replace (Z.abs (100 - risk_score - 50)) with (Z.abs (risk_score - 50)) by lia.
  reflexivity.
Qed.

Lemma band_checked_all :
  forallb band_checked (map Z.of_nat (seq 0 101)) = true.
Proof. vm_compute. reflexivity. Qed.

(** X13: on risk scores in [0,100] the band is Low from 43 to 57, Moderate
    from 23 to 42 and from 58 to 77, and High below 23 and above 77 (at 23
    and 77 the confidence rounds to exactly 82.0, which is Moderate). *)
Theorem confidence_band_by_risk_score (probabilities : list float) (risk_score : Z) :
  0 <= risk_score <= 100 ->
  exists c,
    calculate_confidence probabilities risk_score
    = Ok {| confidence := c; confidenceBand := band_of_risk_score risk_score |}.
Proof.
  intros Hr.
  pose proof (Z_range_forallb _ 101 band_checked_all risk_score ltac:(lia)) as H.
  unfold band_checked in H.
  change (calculate_confidence [] risk_score)
    with (calculate_confidence probabilities risk_score) in H.
  destruct (calculate_confidence probabilities risk_score) as [[c band] | e];
    [| discriminate H].
  cbn [confidenceBand] in H. apply String.eqb_eq in H. subst band.
  exists c. reflexivity.
Qed.

Lemma confidence_band_by_risk_score_witness :
  exists c,
    calculate_confidence [] 77
    = Ok {| confidence := c; confidenceBand := band_of_risk_score 77 |}.
Proof. apply confidence_band_by_risk_score. lia. Defined.

Lemma distance_step_checked_all :
  forallb distance_step_checked (map Z.of_nat (seq 0 50)) = true.
Proof. vm_compute. reflexivity. Qed.

Lemma comparable_checked_all :
  forallb comparable_checked (map Z.of_nat (seq 0 101)) = true.
Proof. vm_compute. reflexivity. Qed.

Lemma result_leb_trans (a b c : result ConfidenceResult) :
  result_leb a b = true -> result_leb b c = true -> result_leb a c = true.
Proof.
  destruct a as [a | ea], b as [b | eb], c as [c | ec]; cbn [result_leb];
    try discriminate. apply float_leb_trans.
Qed.

Lemma confidence_by_distance (probabilities : list float) (risk_score : Z) :
  calculate_confidence probabilities risk_score
  = calculate_confidence [] (50 + Z.abs (risk_score - 50)).
Proof.
  unfold calculate_confidence, calculate_confidence_with.
  replace (Z.abs (50 + Z.abs (risk_score - 50) - 50))
    with (Z.abs (risk_score - 50)) by lia.
  reflexivity.
Qed.

Lemma confidence_chain (n : nat) (d : Z) :
  0 <= d -> d + Z.of_nat n <= 50 ->
  result_leb (calculate_confidence [] (50 + d))
             (calculate_confidence [] (50 + (d + Z.of_nat n))) = true.
Proof.
  induction n as [| n IH]; intros Hd Hn.
  - replace (d + Z.of_nat 0) with d by lia.
    apply (Z_range_forallb _ 101 comparable_checked_all). lia.
  - eapply result_leb_trans; [apply IH; lia|].
    replace (d + Z.of_nat (S n)) with (d + Z.of_nat n + 1) by lia.
    apply (Z_range_forallb _ 50 distance_step_checked_all). lia.
Qed.

(** X14: on risk scores in [0,100], a score at least as far from 50 gets at
    least as high a confidence. *)
Theorem confidence_grows_with_distance
    (probabilities : list float) (r1 r2 : Z) :
  0 <= r1 <= 100 -> 0 <= r2 <= 100 ->
  Z.abs (r1 - 50) <= Z.abs (r2 - 50) ->
  exists a b,
    calculate_confidence probabilities r1 = Ok a
    /\ calculate_confidence probabilities r2 = Ok b
    /\ (confidence a <=? confidence b)%float = true.
Proof.
  intros H1 H2 Hd.
  pose proof (confidence_chain (Z.to_nat (Z.abs (r2 - 50) - Z.abs (r1 - 50)))
                (Z.abs (r1 - 50)) ltac:(lia) ltac:(lia)) as H.
  replace (Z.abs (r1 - 50) + Z.of_nat (Z.to_nat (Z.abs (r2 - 50) - Z.abs (r1 - 50))))
    with (Z.abs (r2 - 50)) in H by lia.
  rewrite <- (confidence_by_distance probabilities r1) in H.
  rewrite <- (confidence_by_distance probabilities r2) in H.
  unfold result_leb in H.
  destruct (calculate_confidence probabilities r1) as [a | e]; [| discriminate H].
  destruct (calculate_confidence probabilities r2) as [b | e]; [| discriminate H].
  exists a, b. repeat split. exact H.
Qed.

Lemma confidence_grows_with_distance_witness :
  exists a b,
    calculate_confidence [] 60 = Ok a
    /\ calculate_confidence [] 20 = Ok b
    /\ (confidence a <=? confidence b)%float = true.
Proof. apply confidence_grows_with_distance; lia. Defined.



(** ** Feature array and request handler *)

Lemma obind_Returns {A B : Type} (o : outcome A) (k : A -> outcome B) (b : B) :
  obind o k = Returns b -> exists a, o = Returns a /\ k a = Returns b.
Proof. destruct o as [a | e |]; cbn; intros H; [eauto | discriminate H ..]. Qed.

(** What acceptance says about the five fields. *)
Lemma accepted_fields (data : gmap string pyval) :
  validate_inputs data = Ok (true, None) ->
  forall f, In f REQUIRED_FIELDS ->
    exists v r, data !! f = Some v /\ is_number v = true
                /\ FIELD_RANGES !! f = Some r /\ within v r = true
                /\ (f = "age" -> isinstance_int v = true).
Proof.
  intros H f Hf. apply accepted_iff in H.
  apply andb_prop in H as [H _]. unfold per_field_checks_pass in H.
  apply andb_prop in H as [H Hr]. apply andb_prop in H as [H Ha].
  apply andb_prop in H as [_ Ht].
  pose proof (forallb_In _ _ _ Ht Hf) as Hft.
  pose proof (forallb_In _ _ _ Hr Hf) as Hfr.
  unfold well_typed in Hft. unfold in_range in Hfr. unfold age_is_int in Ha.
  destruct (data !! f) as [v |] eqn:E; [| discriminate Hft].
  destruct (FIELD_RANGES !! f) as [r |]; [| discriminate Hfr].
  exists v, r. repeat split; try assumption; try reflexivity.
  intros ->. rewrite E in Ha. exact Ha.
Qed.

Lemma within_float_bounds_int (z : Z) :
  within (VInt z) {| range_min := VFloat 10; range_max := VFloat 70 |} = true ->
  10 <= z <= 70.
Proof.
  unfold within, num_lt, num_gt. cbn [as_number range_min range_max num_compare].
  unfold compare_int_float.
  change (Prim2SF 10) with (S754_finite false 5629499534213120 (-49)).
  change (Prim2SF 70) with (S754_finite false 4925812092436480 (-46)).
  cbv beta iota zeta.
  destruct (Z.compare_spec (z * 2 ^ 49) 5629499534213120);
    destruct (Z.compare_spec (z * 2 ^ 46) 4925812092436480);
    cbn; intros Hw; first [discriminate Hw | lia].
Qed.

Lemma exactly_converted_all :
  forallb exactly_converted (map Z.of_nat (seq 0 601)) = true.
Proof. vm_compute. reflexivity. Qed.

Lemma py_float_int_exact (z : Z) :
  0 <= z <= 600 ->
  exists f, py_float (VInt z) = Returns f /\ compare_int_float z f = Some Eq.
Proof.
  intros Hz.
  pose proof (Z_range_forallb _ 601 exactly_converted_all z ltac:(lia)) as H.
  unfold exactly_converted in H. cbn [py_float].
  destruct (float_of_int z) as [f | e]; [| discriminate H].
  exists f. split; [reflexivity|].
  destruct (compare_int_float z f) as [[] |]; first [reflexivity | discriminate H].
Qed.

(** An accepted value converts to a float of the same value. *)
Lemma accepted_py_float (data : gmap string pyval) (f : string) :
  validate_inputs data = Ok (true, None) ->
  In f REQUIRED_FIELDS ->
  exists v x, data !! f = Some v /\ py_float v = Returns x /\ same_value (Some v) x.
Proof.
  intros H Hf.
  destruct (accepted_fields data H f Hf) as (v & r & Hv & Hnum & Hr & Hw & _).
  exists v. destruct v as [| b | z | g | s]; try discriminate Hnum.
  - assert (Hz : 0 <= z <= 600).
    { destruct FIELD_RANGES_lookup as (Ra & Rb & Rc & Rs & Rd).
      each_required_field Hf;
        [rewrite Ra in Hr | rewrite Rb in Hr | rewrite Rc in Hr
        | rewrite Rs in Hr | rewrite Rd in Hr];
        injection Hr as <-;
        first [apply within_int_bounds in Hw | apply within_float_bounds_int in Hw];
        lia. }
    destruct (py_float_int_exact z Hz) as (x & Hx & Hex).
    exists x. repeat split; assumption.
  - exists g. repeat split; try assumption; reflexivity.
Qed.

Lemma build_feature_array_accepted (data : gmap string pyval) :
  validate_inputs data = Ok (true, None) ->
  exists age bmi cholesterol systolic diastolic,
    build_feature_array data = Returns [[age; bmi; cholesterol; systolic; diastolic]]
    /\ same_value (data !! "age") age
    /\ same_value (data !! "bmi") bmi
    /\ same_value (data !! "cholesterol") cholesterol
    /\ same_value (data !! "systolic") systolic
    /\ same_value (data !! "diastolic") diastolic.
Proof.
  intros H.
  destruct (accepted_py_float data "age" H ltac:(cbn; tauto)) as (va & a & Ea & Fa & Sa).
  destruct (accepted_py_float data "bmi" H ltac:(cbn; tauto)) as (vb & b & Eb & Fb & Sb).
  destruct (accepted_py_float data "cholesterol" H ltac:(cbn; tauto))
    as (vc & c & Ec & Fc & Sc).
  destruct (accepted_py_float data "systolic" H ltac:(cbn; tauto))
    as (vs & s & Es & Fs & Ss).
  destruct (accepted_py_float data "diastolic" H ltac:(cbn; tauto))
    as (vd & d & Ed & Fd & Sd).
  exists a, b, c, s, d.
  unfold build_feature_array, getitem.
  rewrite Ea, Eb, Ec, Es, Ed. cbn [obind np_float64_row].
  rewrite Fa, Fb, Fc, Fs, Fd. cbn [obind].
  repeat split; assumption.
Qed.

(** X16: on an accepted request [build_feature_array] returns one row of
    five floats, in the order age, bmi, cholesterol, systolic, diastolic,
    each equal in value to the request's entry (integers convert exactly). *)
Theorem build_feature_array_of_accepted (data : gmap string pyval) :
  validate_inputs data = Ok (true, None) ->
  exists age bmi cholesterol systolic diastolic,
    build_feature_array data = Returns [[age; bmi; cholesterol; systolic; diastolic]]
    /\ same_value (data !! "age") age
    /\ same_value (data !! "bmi") bmi
    /\ same_value (data !! "cholesterol") cholesterol
    /\ same_value (data !! "systolic") systolic
    /\ same_value (data !! "diastolic") diastolic.
Proof. apply build_feature_array_accepted. Qed.

Lemma build_feature_array_of_accepted_witness :
  exists age bmi cholesterol systolic diastolic,
    build_feature_array request_age_30
    = Returns [[age; bmi; cholesterol; systolic; diastolic]]
    /\ same_value (request_age_30 !! "age") age
    /\ same_value (request_age_30 !! "bmi") bmi
    /\ same_value (request_age_30 !! "cholesterol") cholesterol
    /\ same_value (request_age_30 !! "systolic") systolic
    /\ same_value (request_age_30 !! "diastolic") diastolic.
Proof. apply build_feature_array_of_accepted. vm_compute. reflexivity. Defined.

(** X17: when a required key is absent, [build_feature_array] raises
    [KeyError] for the first absent key in the order age, bmi, cholesterol,
    systolic, diastolic, whatever the other entries hold. *)
Theorem build_feature_array_missing_key (data : gmap string pyval) (field : string) :
  In field REQUIRED_FIELDS ->
  data !! field = None ->
  exists first,
    find (fun f => negb (bool_decide (is_Some (data !! f)))) REQUIRED_FIELDS = Some first
    /\ build_feature_array data
       = Raises {| exc_class := IsKeyError; exc_str := "'" +:+ first +:+ "'" |}.
Proof.
  intros Hin Hnone. unfold build_feature_array, getitem, REQUIRED_FIELDS.
  cbn [find].
  destruct (data !! "age") as [va |] eqn:Ea; cbn [bool_decide negb obind];
    [rewrite bool_decide_eq_true_2 by (eexists; reflexivity)
    | rewrite bool_decide_eq_false_2 by (apply is_Some_None); eauto].
  destruct (data !! "bmi") as [vb |] eqn:Eb; cbn [negb obind];
    [rewrite bool_decide_eq_true_2 by (eexists; reflexivity)
    | rewrite bool_decide_eq_false_2 by (apply is_Some_None); eauto].
  destruct (data !! "cholesterol") as [vc |] eqn:Ec; cbn [negb obind];
    [rewrite bool_decide_eq_true_2 by (eexists; reflexivity)
    | rewrite bool_decide_eq_false_2 by (apply is_Some_None); eauto].
  destruct (data !! "systolic") as [vs |] eqn:Es; cbn [negb obind];
    [rewrite bool_decide_eq_true_2 by (eexists; reflexivity)
    | rewrite bool_decide_eq_false_2 by (apply is_Some_None); eauto].
  destruct (data !! "diastolic") as [vd |] eqn:Ed; cbn [negb obind];
    [rewrite bool_decide_eq_true_2 by (eexists; reflexivity)
    | rewrite bool_decide_eq_false_2 by (apply is_Some_None); eauto].
  exfalso. each_required_field Hin; congruence.
Qed.

Lemma build_feature_array_missing_key_witness :
  exists first,
    find (fun f => negb (bool_decide (is_Some (request_age_only !! f)))) REQUIRED_FIELDS
    = Some first
    /\ build_feature_array request_age_only
       = Raises {| exc_class := IsKeyError; exc_str := "'" +:+ first +:+ "'" |}.
Proof.
  apply (build_feature_array_missing_key request_age_only "systolic");
    [cbn; tauto | vm_compute; reflexivity].
Defined.

Lemma within_int_range_trunc (g : float) (lo hi : Z) :
  within (VFloat g) {| range_min := VInt lo; range_max := VInt hi |} = true ->
  int_or_nan (VFloat g).
Proof.
  unfold within, num_lt, num_gt, int_or_nan.
  cbn [as_number range_min range_max num_compare py_int].
  unfold compare_int_float, float_trunc.
  destruct (Prim2SF g) as [s | s | | s m e] eqn:E; intros Hw.
  - left. eauto.
  - exfalso. destruct s; cbn in Hw; discriminate Hw.
  - right. split; [f_equal; exact (Prim2SF_nan g E) | reflexivity].
  - left. eauto.
Qed.

Lemma accepted_py_int (data : gmap string pyval) (f : string) :
  validate_inputs data = Ok (true, None) ->
  In f ["cholesterol"; "systolic"; "diastolic"] ->
  exists v, data !! f = Some v /\ int_or_nan v.
Proof.
  intros H Hf.
  assert (Hin : In f REQUIRED_FIELDS) by (cbn in *; tauto).
  destruct (accepted_fields data H f Hin) as (v & r & Hv & Hnum & Hr & Hw & _).
  exists v. split; [exact Hv|].
  destruct v as [| b | z | g | s]; try discriminate Hnum.
  - left. exists z. reflexivity.
  - destruct FIELD_RANGES_lookup as (Ra & Rb & Rc & Rs & Rd).
    cbn in Hf. destruct Hf as [<- | [<- | [<- | []]]];
      [rewrite Rc in Hr | rewrite Rs in Hr | rewrite Rd in Hr];
      injection Hr as <-; exact (within_int_range_trunc _ _ _ Hw).
Qed.

Lemma accepted_conversions (data : gmap string pyval) :
  validate_inputs data = Ok (true, None) ->
  exists age vb bmi vc vs vd X,
    data !! "age" = Some (VInt age)
    /\ data !! "bmi" = Some vb /\ py_float vb = Returns bmi
    /\ data !! "cholesterol" = Some vc /\ int_or_nan vc
    /\ data !! "systolic" = Some vs /\ int_or_nan vs
    /\ data !! "diastolic" = Some vd /\ int_or_nan vd
    /\ build_feature_array data = Returns X.
Proof.
  intros H.
  destruct (accepted_fields data H "age" ltac:(cbn; tauto))
    as (va & ra & Ea & Hna & _ & _ & Hint).
  specialize (Hint eq_refl).
  destruct va as [| b | age | g | s]; try discriminate Hna; try discriminate Hint.
  destruct (accepted_py_float data "bmi" H ltac:(cbn; tauto)) as (vb & bmi & Eb & Fb & _).
  destruct (accepted_py_int data "cholesterol" H ltac:(cbn; tauto)) as (vc & Ec & Hc).
  destruct (accepted_py_int data "systolic" H ltac:(cbn; tauto)) as (vs & Es & Hs).
  destruct (accepted_py_int data "diastolic" H ltac:(cbn; tauto)) as (vd & Ed & Hd).
  destruct (build_feature_array_accepted data H) as (a & b & c & s & d & HX & _).
  exists age, vb, bmi, vc, vs, vd, [[a; b; c; s; d]].
  repeat split; assumption.
Qed.

Lemma risk_score_bounds age bmi cholesterol systolic diastolic :
  0 <= calculate_risk_score age bmi cholesterol systolic diastolic <= 100.
Proof.
  unfold calculate_risk_score. rewrite py_clamp_int. unfold clamp. lia.
Qed.

Lemma confidence_defined (probabilities : list float) (risk_score : Z) :
  0 <= risk_score <= 100 ->
  exists r, calculate_confidence probabilities risk_score = Ok r
            /\ (60 <=? confidence r)%float = true
            /\ (confidence r <=? 90)%float = true
            /\ confidenceBand r = classify_confidence_band (confidence r).
Proof.
  intros Hr.
  pose proof (Z_range_forallb _ 101 confidence_checked_all risk_score ltac:(lia)) as H.
  unfold confidence_checked in H.
  change (calculate_confidence [] risk_score)
    with (calculate_confidence probabilities risk_score) in H.
  destruct (calculate_confidence probabilities risk_score) as [r | e];
    [| discriminate H].
  apply andb_prop in H as [H _]. apply andb_prop in H as [H Hband].
  apply andb_prop in H as [Hlo Hhi]. apply String.eqb_eq in Hband.
  exists r. repeat split; assumption.
Qed.

Lemma classify_bp_named (systolic diastolic : Z) :
  named_category (classify_bp systolic diastolic).
Proof.
  pose proof (classify_bp_region_of systolic diastolic) as (Hc & H2 & H1 & He & Hn).
  unfold named_category.
  destruct (Z_lt_le_dec 180 systolic); [left; apply Hc; lia|].
  destruct (Z_lt_le_dec 120 diastolic); [left; apply Hc; lia|].
  destruct (Z_lt_le_dec systolic 140), (Z_lt_le_dec diastolic 90);
    try (right; left; apply H2; lia).
  destruct (Z_lt_le_dec systolic 130), (Z_lt_le_dec diastolic 80);
    try (right; right; left; apply H1; lia).
  destruct (Z_lt_le_dec systolic 120);
    [right; right; right; right; apply Hn; lia
    | right; right; right; left; apply He; lia].
Qed.

Ltac enter_try lookups :=
  unfold predict_try, getitem; cbv zeta;
  destruct lookups as (age & vb & bmi & vc & vs & vd & X & Ea & Eb & Fb
                       & Ec & Hc & Es & Hs & Ed & Hd & HX);
  rewrite Ea, Eb, Ec, Es, Ed; cbn [obind py_int]; rewrite Fb; cbn [obind].

Lemma predict_try_modelled (model : classifier) (data : gmap string pyval) :
  validate_inputs data = Ok (true, None) ->
  predict_try model data <> Unmodelled.
Proof.
  intros H. pose proof (accepted_conversions data H) as L.
  enter_try L.
  destruct Hc as [[c Hc] | [_ Hc]]; rewrite Hc; cbn [obind]; [| discriminate].
  destruct Hs as [[s Hs] | [_ Hs]]; rewrite Hs; cbn [obind]; [| discriminate].
  destruct Hd as [[d Hd] | [_ Hd]]; rewrite Hd; cbn [obind]; [| discriminate].
  rewrite HX. cbn [obind].
  destruct (model_predict model X) as [e | p]; cbn [call obind]; [discriminate|].
  destruct (model_predict_proba model X) as [e | q]; cbn [call obind]; [discriminate|].
  destruct (confidence_defined q _ (risk_score_bounds age bmi c s d)) as (r & -> & _).
  cbn [obind]. discriminate.
Qed.

(** X18: with a model loaded, the handler answers every JSON object, however
    malformed, with status 200 and a prediction, 400 and an error, or 500
    and "Prediction failed"; it never raises, and outside debug mode a 500
    response carries no exception text. *)
Theorem predict_always_responds
    (debug : bool) (model : classifier) (data : gmap string pyval) :
  exists body status,
    predict debug (Some model) (JsonObject data) = Returns (body, status)
    /\ ((status = 200 /\ exists r, body = PredictionBody r)
        \/ (status = 400 /\ exists e d, body = ErrorBody (Some e) d)
        \/ (status = 500
            /\ exists d, body = ErrorBody (Some "Prediction failed") (Some d)
                         /\ (debug = false -> d = "Internal server error"))).
Proof.
  unfold predict.
  destruct (validate_inputs_shape data) as [Hok | [msg Hbad]].
  - rewrite Hok. cbn [negb].
    pose proof (predict_try_modelled model data Hok) as Hm.
    destruct (predict_try model data) as [r | e |]; [| | congruence].
    + eexists _, _. split; [reflexivity|]. left. eauto.
    + destruct e as [[] msg]; cbn [exc_class exc_str];
        eexists _, _; (split; [reflexivity|]);
        first [ right; left; split; [reflexivity | eauto]
              | right; right; split; [reflexivity|];
                eexists; split; [reflexivity|]; intros ->; reflexivity ].
  - rewrite Hbad. cbn [negb].
    eexists _, _. split; [reflexivity|]. right; left. eauto.
Qed.

(** X19: a request that the validator accepts although its cholesterol,
    systolic or diastolic value is NaN is answered with status 400 and
    "Invalid data type for field": no score is computed from NaN. *)
Theorem predict_rejects_nan
    (debug : bool) (model : classifier) (data : gmap string pyval) :
  validate_inputs data = Ok (true, None) ->
  data !! "cholesterol" = Some (VFloat nan)
  \/ data !! "systolic" = Some (VFloat nan)
  \/ data !! "diastolic" = Some (VFloat nan) ->
  predict debug (Some model) (JsonObject data)
  = Returns (ErrorBody (Some "Invalid data type for field")
                       (Some "cannot convert float NaN to integer"), 400).
Proof.
  intros H Hnan. unfold predict. rewrite H. cbn [negb].
  assert (Ht : predict_try model data = Raises nan_to_integer_error).
  { pose proof (accepted_conversions data H) as L.
    enter_try L.
    assert (Hraise : py_int (VFloat nan) = Raises nan_to_integer_error)
      by (vm_compute; reflexivity).
    assert (Hv : vc = VFloat nan \/ vs = VFloat nan \/ vd = VFloat nan)
      by (rewrite Ec, Es, Ed in Hnan;
          destruct Hnan as [E | [E | E]]; injection E as ->; tauto).
    destruct Hc as [[c Hc] | [_ Hc]]; rewrite Hc; cbn [obind]; [| reflexivity].
    destruct Hs as [[s Hs] | [_ Hs]]; rewrite Hs; cbn [obind]; [| reflexivity].
    destruct Hd as [[d Hd] | [_ Hd]]; rewrite Hd; cbn [obind]; [| reflexivity].
    exfalso. destruct Hv as [-> | [-> | ->]]; congruence. }
  rewrite Ht. reflexivity.
Qed.

Lemma predict_rejects_nan_witness :
  predict false (Some constant_classifier) (JsonObject request_nan_systolic)
  = Returns (ErrorBody (Some "Invalid data type for field")
                       (Some "cannot convert float NaN to integer"), 400).
Proof.
  apply predict_rejects_nan;
    [vm_compute; reflexivity | right; left; vm_compute; reflexivity].
Defined.

(** X20: every 200 response comes from a loaded model and an accepted JSON
    object; its fields are the rule engine's results on the extracted
    values ([int] for age, cholesterol and the pressures, [float] for
    bmi); its risk score lies in [0,100], its confidence in [60,90] with
    the matching band, and its BP category is one of the five named ones. *)
Theorem predict_success_sound
    (debug : bool) (model : option classifier) (body : request_json)
    (r : prediction_response) (status : Z) :
  predict debug model body = Returns (PredictionBody r, status) ->
  status = 200
  /\ (exists m data age bmi cholesterol systolic diastolic X q,
         model = Some m /\ body = JsonObject data
         /\ validate_inputs data = Ok (true, None)
         /\ extracted data age bmi cholesterol systolic diastolic
         /\ build_feature_array data = Returns X
         /\ model_predict m X = inr (prediction r)
         /\ model_predict_proba m X = inr q
         /\ riskScore r = calculate_risk_score age bmi cholesterol systolic diastolic
         /\ calculate_confidence q (riskScore r)
            = Ok {| confidence := response_confidence r;
                    confidenceBand := response_confidenceBand r |}
         /\ bpCategory r = category (classify_bp systolic diastolic)
         /\ bpStage r = stage (classify_bp systolic diastolic)
         /\ bpColor r = color (classify_bp systolic diastolic)
         /\ riskFactors r
            = identify_risk_factors age bmi cholesterol systolic diastolic)
  /\ 0 <= riskScore r <= 100
  /\ (60 <=? response_confidence r)%float = true
  /\ (response_confidence r <=? 90)%float = true
  /\ response_confidenceBand r = classify_confidence_band (response_confidence r)
  /\ bpCategory r <> "Unknown".
Proof.
  unfold predict. intros H.
  destruct model as [m |]; [| discriminate H].
  destruct body as [| | data |]; try discriminate H.
  destruct (validate_inputs_shape data) as [Hok | [msg Hbad]];
    [rewrite Hok in H | rewrite Hbad in H; discriminate H].
  cbn [negb] in H.
  destruct (predict_try m data) as [r' | e |] eqn:Et;
    [| destruct (exc_class e); discriminate H | discriminate H].
  injection H as -> <-.
  unfold predict_try in Et. cbv zeta in Et.
  apply obind_Returns in Et as (age & Hage & Et).
  apply obind_Returns in Et as (bmi & Hbmi & Et).
  apply obind_Returns in Et as (chol & Hchol & Et).
  apply obind_Returns in Et as (s & Hs & Et).
  apply obind_Returns in Et as (d & Hd & Et).
  apply obind_Returns in Et as (X & HX & Et).
  apply obind_Returns in Et as (p & Hp & Et).
  apply obind_Returns in Et as (q & Hq & Et).
  apply obind_Returns in Et as (cr & Hcr & Et).
  injection Et as <-. cbn [prediction response_confidence response_confidenceBand
                           riskScore bpCategory bpStage bpColor riskFactors].
  destruct (model_predict m X) as [e | p'] eqn:Ep; [discriminate Hp|].
  injection Hp as ->.
  destruct (model_predict_proba m X) as [e | q'] eqn:Eq; [discriminate Hq|].
  injection Hq as ->.
  pose proof (risk_score_bounds age bmi chol s d) as Hrange.
  destruct (confidence_defined q _ Hrange) as (cr' & Ecr & Hlo & Hhi & Hband).
  rewrite Ecr in Hcr. injection Hcr as ->.
  split; [reflexivity|]. split.
  { exists m, data, age, bmi, chol, s, d, X, q.
    repeat split; try assumption; try reflexivity.
    rewrite Ecr. destruct cr; reflexivity. }
  repeat split; try assumption; try lia.
  intros Hunknown.
  destruct (classify_bp_named s d) as [E | [E | [E | [E | E]]]];
    rewrite E in Hunknown; discriminate Hunknown.
Qed.

Lemma predict_success_sound_witness :
  200 = 200
  /\ (exists m data age bmi cholesterol systolic diastolic X q,
         Some constant_classifier = Some m
         /\ JsonObject request_end_to_end = JsonObject data
         /\ validate_inputs data = Ok (true, None)
         /\ extracted data age bmi cholesterol systolic diastolic
         /\ build_feature_array data = Returns X
         /\ model_predict m X = inr 1
         /\ model_predict_proba m X = inr q
         /\ 82 = calculate_risk_score age bmi cholesterol systolic diastolic
         /\ calculate_confidence q 82
            = Ok {| confidence := 84%float; confidenceBand := "High" |}
         /\ "High BP – Stage 2" = category (classify_bp systolic diastolic)
         /\ "stage2" = stage (classify_bp systolic diastolic)
         /\ "red" = color (classify_bp systolic diastolic)
         /\ ["Stage 2 systolic hypertension"; "Stage 2 diastolic hypertension";
             "Senior age (≥60 yrs)"; "Obesity (BMI ≥30)";
             "High cholesterol (≥240 mg/dL)"]
            = identify_risk_factors age bmi cholesterol systolic diastolic)
  /\ 0 <= 82 <= 100
  /\ (60 <=? 84)%float = true
  /\ (84 <=? 90)%float = true
  /\ "High" = classify_confidence_band 84
  /\ "High BP – Stage 2" <> "Unknown".
Proof.
  apply (predict_success_sound false (Some constant_classifier)
           (JsonObject request_end_to_end)
           {| prediction := 1;
              response_confidence := 84%float;
              response_confidenceBand := "High";
              riskScore := 82;
              bpCategory := "High BP – Stage 2";
              bpStage := "stage2";
              bpColor := "red";
              riskFactors :=
                ["Stage 2 systolic hypertension"; "Stage 2 diastolic hypertension";
                 "Senior age (≥60 yrs)"; "Obesity (BMI ≥30)";
                 "High cholesterol (≥240 mg/dL)"] |}
           200).
  vm_compute. reflexivity.
Defined.

(** X21: an accepted request without NaN among cholesterol, systolic and
    diastolic, on which the model answers, gets status 200. *)
Theorem predict_success_complete
    (debug : bool) (model : classifier) (data : gmap string pyval)
    (features : list (list float)) (p : Z) (q : list float) :
  validate_inputs data = Ok (true, None) ->
  data !! "cholesterol" <> Some (VFloat nan) ->
  data !! "systolic" <> Some (VFloat nan) ->
  data !! "diastolic" <> Some (VFloat nan) ->
  build_feature_array data = Returns features ->
  model_predict model features = inr p ->
  model_predict_proba model features = inr q ->
  exists r,
    predict debug (Some model) (JsonObject data) = Returns (PredictionBody r, 200)
    /\ prediction r = p.
Proof.
  intros H Nc Ns Nd HX' Hp Hq. unfold predict. rewrite H. cbn [negb].
  pose proof (accepted_conversions data H) as L.
  enter_try L.
  rewrite Ec in Nc. rewrite Es in Ns. rewrite Ed in Nd.
  destruct Hc as [[c Hc] | [-> _]]; [| congruence]. rewrite Hc. cbn [obind].
  destruct Hs as [[s Hs] | [-> _]]; [| congruence]. rewrite Hs. cbn [obind].
  destruct Hd as [[d Hd] | [-> _]]; [| congruence]. rewrite Hd. cbn [obind].
  rewrite HX in HX'. injection HX' as <-.
  rewrite HX. cbn [obind]. rewrite Hp, Hq. cbn [call obind].
  destruct (confidence_defined q _ (risk_score_bounds age bmi c s d)) as (cr & -> & _).
  cbn [obind]. eexists. split; reflexivity.
Qed.

Lemma predict_success_complete_witness :
  exists r,
    predict false (Some constant_classifier) (JsonObject request_age_30)
    = Returns (PredictionBody r, 200)
    /\ prediction r = 1.
Proof.
  apply (predict_success_complete false constant_classifier request_age_30
           [[30; 22.5; 180; 120; 80]]%float 1 [0; 1]%float);
    first [vm_compute; reflexivity | vm_compute; discriminate].
Defined.
